(** * Zero2JSON: position-as-seed prompt generation

    A shallow embedding of [nodes/base.py] and [nodes/utility_nodes.py]:
    the coordinate hasher ([prompt_hash], [hash_to_index]), profile
    loading and validation ([load_profile]), the combinatorics
    ([calculate_combinations]), the renderer ([generate_prompt]), the node
    entry point ([generate]) and the utility nodes ([generate_batch],
    [mix_seeds], [IS_CHANGED]).

    Python integers are [Z]; byte strings are lists of [Z] in [0, 255];
    text is [string] (read as UTF-8 bytes, whose ASCII delimiters are what
    [str.format] and [str.replace] look at).  Dicts whose iteration order
    the program relies on ([pools]) are association lists in insertion
    order; dicts used purely for lookup ([components], the class-level
    profile cache) are [gmap]s. *)

From Stdlib Require Import ZArith Lia Ascii String.
From stdpp Require Import base option list strings pretty sorting gmap.

Local Open Scope Z_scope.

(** ** 32-bit arithmetic *)

Module U32.

Definition modulus : Z := 2 ^ 32.
Definition mask : Z := 0xFFFFFFFF.

Definition wrap (x : Z) : Z := x mod modulus.
Definition add (x y : Z) : Z := wrap (x + y).
Definition sub (x y : Z) : Z := wrap (x - y).
Definition mul (x y : Z) : Z := wrap (x * y).
Definition rotl (x r : Z) : Z :=
  wrap (Z.lor (Z.shiftl x r) (Z.shiftr x (32 - r))).

End U32.

(** ** Byte strings *)

Abbreviation bytes := (list Z).

(** Little-endian bytes of the low [8 * n] bits of [x]. *)
Fixpoint le_bytes (n : nat) (x : Z) : bytes :=
  match n with
  | O => []
  | S n' => Z.land x 255 :: le_bytes n' (Z.shiftr x 8)
  end.

(** [str.encode()] of a text, byte by byte. *)
Fixpoint encode (s : string) : bytes :=
  match s with
  | EmptyString => []
  | String c s' => Z.of_nat (Ascii.nat_of_ascii c) :: encode s'
  end.

(** ** The xxhash library: XXH32

    [xxhash.xxh32] is an external dependency; it is modelled by the
    published XXH32 algorithm.  A hasher object is its seed together with
    the bytes fed so far; [intdigest] hashes the accumulated bytes. *)

Module XXH32.

Definition PRIME32_1 : Z := 2654435761.
Definition PRIME32_2 : Z := 2246822519.
Definition PRIME32_3 : Z := 3266489917.
Definition PRIME32_4 : Z := 668265263.
Definition PRIME32_5 : Z := 374761393.

Definition read32 (b0 b1 b2 b3 : Z) : Z :=
  Z.lor b0 (Z.lor (Z.shiftl b1 8) (Z.lor (Z.shiftl b2 16) (Z.shiftl b3 24))).

Definition round (acc input : Z) : Z :=
  U32.mul (U32.rotl (U32.add acc (U32.mul input PRIME32_2)) 13) PRIME32_1.

(** The four accumulators consume the input in stripes of 16 bytes; what
    is left (fewer than 16 bytes) is returned with them. *)
Fixpoint stripes (v1 v2 v3 v4 : Z) (p : bytes) : Z * Z * Z * Z * bytes :=
  match p with
  | a0 :: a1 :: a2 :: a3 :: b0 :: b1 :: b2 :: b3 ::
    c0 :: c1 :: c2 :: c3 :: d0 :: d1 :: d2 :: d3 :: rest =>
      stripes (round v1 (read32 a0 a1 a2 a3)) (round v2 (read32 b0 b1 b2 b3))
              (round v3 (read32 c0 c1 c2 c3)) (round v4 (read32 d0 d1 d2 d3))
              rest
  | _ => (v1, v2, v3, v4, p)
  end.

(** Remaining input: whole 4-byte lanes first, then single bytes. *)
Fixpoint finalize (h32 : Z) (p : bytes) : Z :=
  match p with
  | b0 :: b1 :: b2 :: b3 :: rest =>
      finalize
        (U32.mul (U32.rotl (U32.add h32 (U32.mul (read32 b0 b1 b2 b3) PRIME32_3)) 17)
                 PRIME32_4)
        rest
  | b :: rest =>
      finalize
        (U32.mul (U32.rotl (U32.add h32 (U32.mul b PRIME32_5)) 11) PRIME32_1)
        rest
  | [] => h32
  end.

Definition avalanche (h : Z) : Z :=
  let h := Z.lxor h (Z.shiftr h 15) in
  let h := U32.mul h PRIME32_2 in
  let h := Z.lxor h (Z.shiftr h 13) in
  let h := U32.mul h PRIME32_3 in
  Z.lxor h (Z.shiftr h 16).

Definition digest (seed : Z) (input : bytes) : Z :=
  let len := Z.of_nat (length input) in
  let '(h32, rest) :=
    if 16 <=? len then
      let '(v1, v2, v3, v4, rest) :=
        stripes (U32.add (U32.add seed PRIME32_1) PRIME32_2)
                (U32.add seed PRIME32_2)
                (U32.wrap seed)
                (U32.sub seed PRIME32_1)
                input in
      (U32.add (U32.add (U32.rotl v1 1) (U32.rotl v2 7))
               (U32.add (U32.rotl v3 12) (U32.rotl v4 18)), rest)
    else (U32.add seed PRIME32_5, input) in
  avalanche (finalize (U32.add h32 len) rest).

(** The streaming object [xxhash.xxh32(data, seed=...)]. *)
Record state := mk_state { st_seed : Z; st_fed : bytes }.

Definition xxh32 (input : bytes) (seed : Z) : state := mk_state seed input.
Definition update (h : state) (data : bytes) : state :=
  mk_state (st_seed h) (st_fed h ++ data).
Definition intdigest (h : state) : Z := digest (st_seed h) (st_fed h).

End XXH32.

(** ** Effects: exceptions and the hashing trace

    A computation yields the hasher objects it created, in order, and how
    it ended.  The trace makes statements such as "no hashing took place"
    expressible; exceptions are values. *)

Inductive exn : Type :=
| KeyError (key : string)
| ValueError (msg : string)
| IndexError
| ZeroDivisionError
| StructError
| OverflowError
| FileNotFoundError (msg : string)
| JSONDecodeError (msg : string).

(** [Unmodelled] marks a feature of a Python built-in that this development
    does not interpret (see [str_format]); nothing is claimed there. *)
Inductive outcome (A : Type) : Type :=
| Returned (a : A)
| Raised (e : exn)
| Unmodelled.
Arguments Returned {A} a.
Arguments Raised {A} e.
Arguments Unmodelled {A}.

Inductive event : Type :=
| Hasher (seed : Z).

Definition M (A : Type) : Type := (list event * outcome A)%type.

Definition lift {A} (o : outcome A) : M A := ([], o).
Definition raise {A} (e : exn) : M A := ([], Raised e).
Definition trace {A} (m : M A) : list event := fst m.
Definition result {A} (m : M A) : outcome A := snd m.

#[global] Instance M_ret : MRet M := fun A a => ([], Returned a).
#[global] Instance M_bind : MBind M := fun A B f m =>
  match m with
  | (tr, Returned a) => let '(tr', r) := f a in (tr ++ tr', r)
  | (tr, Raised e) => (tr, Raised e)
  | (tr, Unmodelled) => (tr, Unmodelled)
  end.

(** [try: body / except KeyError: handler] *)
Definition try_except_KeyError {A} (body handler : M A) : M A :=
  match body with
  | (tr, Raised (KeyError _)) => let '(tr', r) := handler in (tr ++ tr', r)
  | other => other
  end.

(** ** Python built-ins used by the program *)

(** [xxhash.xxh32(seed=seed)] *)
Definition new_hasher (seed : Z) : M XXH32.state :=
  ([Hasher seed], Returned (XXH32.xxh32 [] seed)).

(** [xxhash.xxh32(data)]: an unseeded hasher that has been fed [data]. *)
Definition new_hasher_fed (data : bytes) : M XXH32.state :=
  ([Hasher 0], Returned (XXH32.xxh32 data 0)).

(** [struct.pack('<' + 'i' * len(coords), *coords)]: every argument must fit
    a signed 32-bit integer, otherwise [struct.error]. *)
Definition in_int32 (x : Z) : bool := (- 2 ^ 31 <=? x) && (x <? 2 ^ 31).

Fixpoint struct_pack_i (coords : list Z) : outcome bytes :=
  match coords with
  | [] => Returned []
  | x :: rest =>
      if in_int32 x then
        match struct_pack_i rest with
        | Returned bs => Returned (le_bytes 4 x ++ bs)
        | other => other
        end
      else Raised StructError
  end.

(** [x.to_bytes(4, 'little')] (unsigned): [OverflowError] when [x] is
    negative or does not fit four bytes. *)
Definition to_bytes_4_little (x : Z) : outcome bytes :=
  if (0 <=? x) && (x <? 2 ^ 32) then Returned (le_bytes 4 x)
  else Raised OverflowError.

(** [l[k]] on a list, with Python's negative indices. *)
Definition getitem {A} (l : list A) (k : Z) : outcome A :=
  let n := Z.of_nat (length l) in
  let k' := if k <? 0 then k + n else k in
  if (0 <=? k') && (k' <? n) then
    match l !! Z.to_nat k' with
    | Some x => Returned x
    | None => Raised IndexError
    end
  else Raised IndexError.

Definition eqb_char (c : ascii) (d : string) : bool :=
  match d with
  | String d' EmptyString => bool_decide (c = d')
  | _ => false
  end.

(** [old] is a prefix of [s]. *)
Fixpoint startswith (old s : string) : bool :=
  match old, s with
  | EmptyString, _ => true
  | String a old', String b s' => bool_decide (a = b) && startswith old' s'
  | String _ _, EmptyString => false
  end.

(** [s.replace(old, new)] for a non-empty [old]: occurrences are replaced
    left to right and do not overlap; [skip] counts the characters of a
    matched occurrence still to be dropped.  (The program only ever
    replaces [{key}], which has at least two characters.) *)
Fixpoint replace_from (old new : string) (skip : nat) (s : string) : string :=
  match s with
  | EmptyString => EmptyString
  | String c s' =>
      match skip with
      | S k => replace_from old new k s'
      | O =>
          if startswith old s
          then new +:+ replace_from old new (String.length old - 1)%nat s'
          else String c (replace_from old new 0 s')
      end
  end.

Definition str_replace (s old new : string) : string :=
  replace_from old new 0 s.

(** *** [str.format] with keyword arguments only

    A call of [format] on a template, with the dict unpacked as keyword
    arguments, scans the template left to right.  [{{] and
    [}}] are escaped braces; a lone [}] or a [{] at the very end is a
    [ValueError]; otherwise [{] opens a replacement field whose name runs
    to the closing [}], square brackets shielding their content.  The
    part of the name before the first [.] or [[] selects the argument: an
    empty or all-digit name is positional, and there are no positional
    arguments ([IndexError]); any other name is looked up in [kwargs]
    ([KeyError] when absent).  The value, a [str], is inserted as it is.

    Conversions ([!r]), format specifications ([:>10]), attribute or
    index access on the value ([{a.b}], [{a[0]}]) and argument names that
    start with a character outside ASCII are [Unmodelled]. *)

Inductive scan_state : Type :=
| InText
| AfterOpen
| AfterClose
| InField (name : string) (bracketed : bool).

Definition PY_SSIZE_T_MAX : Z := 2 ^ 63 - 1.

Definition digit_value (c : ascii) : option Z :=
  let n := Z.of_nat (nat_of_ascii c) in
  if (48 <=? n) && (n <=? 57) then Some (n - 48) else None.

(** [Returned None] when [s] is not a decimal number.  CPython counts
    every Unicode decimal digit as a digit; the bytes of a character
    outside ASCII are not decoded here, so a name that reaches one while
    still reading digits is [Unmodelled]. *)
Fixpoint get_integer (acc : Z) (s : string) : outcome (option Z) :=
  match s with
  | EmptyString => Returned (Some acc)
  | String c s' =>
      match digit_value c with
      | None =>
          if 128 <=? Z.of_nat (nat_of_ascii c) then Unmodelled
          else Returned None
      | Some d =>
          if (PY_SSIZE_T_MAX - d) / 10 <? acc
          then Raised (ValueError "Too many decimal digits in format string")
          else get_integer (acc * 10 + d) s'
      end
  end.

Fixpoint split_first (s : string) : string * string :=
  match s with
  | EmptyString => (EmptyString, EmptyString)
  | String c s' =>
      if eqb_char c "." || eqb_char c "[" then (EmptyString, s)
      else let '(first, rest) := split_first s' in (String c first, rest)
  end.

Definition get_field (field_name : string) (kwargs : gmap string string)
  : outcome string :=
  let '(first, rest) := split_first field_name in
  match first with
  | EmptyString => Raised IndexError
  | _ =>
      match get_integer 0 first with
      | Returned (Some _) => Raised IndexError
      | Returned None =>
          match kwargs !! first with
          | None => Raised (KeyError first)
          | Some value =>
              match rest with
              | EmptyString => Returned value
              | _ => Unmodelled
              end
          end
      | Raised e => Raised e
      | Unmodelled => Unmodelled
      end
  end.

Definition prepend (pre : string) (o : outcome string) : outcome string :=
  match o with
  | Returned s => Returned (pre +:+ s)
  | other => other
  end.

Fixpoint format_scan (kwargs : gmap string string) (st : scan_state)
    (s : string) : outcome string :=
  match s with
  | EmptyString =>
      match st with
      | InText => Returned EmptyString
      | AfterOpen => Raised (ValueError "Single '{' encountered in format string")
      | AfterClose => Raised (ValueError "Single '}' encountered in format string")
      | InField _ _ => Raised (ValueError "expected '}' before end of string")
      end
  | String c s' =>
      let in_field (name : string) (bracketed : bool) : outcome string :=
        if bracketed then
          format_scan kwargs (InField (name +:+ String c EmptyString)
                                      (negb (eqb_char c "]"))) s'
        else if eqb_char c "{" then
          Raised (ValueError "unexpected '{' in field name")
        else if eqb_char c "[" then
          format_scan kwargs (InField (name +:+ "[") true) s'
        else if eqb_char c "}" then
          match get_field name kwargs with
          | Returned value => prepend value (format_scan kwargs InText s')
          | other => other
          end
        else if eqb_char c ":" || eqb_char c "!" then Unmodelled
        else format_scan kwargs (InField (name +:+ String c EmptyString) false) s'
      in
      match st with
      | InText =>
          if eqb_char c "{" then format_scan kwargs AfterOpen s'
          else if eqb_char c "}" then format_scan kwargs AfterClose s'
          else prepend (String c EmptyString) (format_scan kwargs InText s')
      | AfterOpen =>
          if eqb_char c "{" then prepend "{" (format_scan kwargs InText s')
          else in_field EmptyString false
      | AfterClose =>
          if eqb_char c "}" then prepend "}" (format_scan kwargs InText s')
          else Raised (ValueError "Single '}' encountered in format string")
      | InField name bracketed => in_field name bracketed
      end
  end.

Definition str_format (template : string) (kwargs : gmap string string)
  : outcome string :=
  format_scan kwargs InText template.

(** ** Core hash functions (nodes/base.py) *)

Definition prompt_hash (seed : Z) (coords : list Z) : M Z :=
  h ← new_hasher (Z.land seed 0xFFFFFFFF);
  data ← lift (struct_pack_i coords);
  let h := XXH32.update h data in
  mret (XXH32.intdigest h).

Definition hash_to_index (h pool_size : Z) : M Z :=
  if pool_size =? 0 then raise ZeroDivisionError
  else mret (h mod pool_size).

(** ** Profiles

    A profile is the dict parsed from a JSON document.  The keys the
    program reads may each be absent; [pools] keeps its insertion order. *)

Record Profile : Type := mk_profile {
  templates : option (list string);
  pools : option (list (string * list string));
  meta_name : option string;
  meta_description : option string;
  meta_version : option string
}.

(** What the profiles directory holds under a file name: a text that is
    not JSON (the decoder's message is kept), or a JSON object.  The
    directory maps the names of its regular files; absence of a name means
    that nothing exists under it.  Names that resolve elsewhere (the empty
    name, [.], [..], names with a path separator) and JSON documents that
    are not objects are outside this model. *)
Inductive file : Type :=
| Malformed (msg : string)
| Document (profile : Profile).

Definition load_profile (profiles_dir : gmap string file)
    (profile_name : string) : outcome Profile :=
  match profiles_dir !! profile_name with
  | None => Raised (FileNotFoundError ("Profile not found: " +:+ profile_name))
  | Some (Malformed msg) => Raised (JSONDecodeError msg)
  | Some (Document profile) =>
      match templates profile with
      | None =>
          Raised (ValueError ("Profile " +:+ profile_name +:+ " missing 'templates' field"))
      | Some _ =>
          match pools profile with
          | None =>
              Raised (ValueError ("Profile " +:+ profile_name +:+ " missing 'pools' field"))
          | Some _ => Returned profile
          end
      end
  end.

Definition len {A} (l : list A) : Z := Z.of_nat (length l).

Definition calculate_combinations (profile : Profile) : Z :=
  fold_left (fun total pool => total * len pool)
            (map snd (default [] (pools profile)))
            (len (default [] (templates profile))).

(** ** Prompt generation *)

(** The loop [for i, (key, pool) in enumerate(pools.items())], entered at
    ordinal [i] with the dict [components] built so far. *)
Fixpoint select_components (seed prompt_idx i : Z)
    (items : list (string * list string)) (components : gmap string string)
  : M (gmap string string) :=
  match items with
  | [] => mret components
  | (key, pool) :: rest =>
      component_hash ← prompt_hash seed [prompt_idx; i + 1];
      k ← hash_to_index component_hash (len pool);
      item ← lift (getitem pool k);
      select_components seed prompt_idx (i + 1) rest (<[key := item]> components)
  end.

(** The [except KeyError] branch: each pool key's [{key}] is replaced in
    turn. *)
Definition fallback (template : string) (keys : list string)
    (components : gmap string string) : string :=
  fold_left
    (fun template key =>
       str_replace template ("{" +:+ key +:+ "}")
                   (default ("[" +:+ key +:+ "]") (components !! key)))
    keys template.

Definition format_template (template : string)
    (pools : list (string * list string)) (components : gmap string string)
  : M string :=
  try_except_KeyError
    (lift (str_format template components))
    (mret (fallback template (map fst pools) components)).

Definition subscript {A} (field : option A) (key : string) : M A :=
  match field with
  | Some v => mret v
  | None => raise (KeyError key)
  end.

Definition generate_prompt (seed prompt_idx : Z) (profile : Profile) : M string :=
  templates ← subscript (templates profile) "templates";
  pools ← subscript (pools profile) "pools";
  template_hash ← prompt_hash seed [prompt_idx; 0];
  t ← hash_to_index template_hash (len templates);
  template ← lift (getitem templates t);
  components ← select_components seed prompt_idx 0 pools ∅;
  format_template template pools components.

(** ** The base node *)

Module Zero2JSONBaseNode.

Definition truthy (s : string) : bool :=
  match s with
  | EmptyString => false
  | _ => true
  end.

(** [generate] threads the class-level [_profile_cache]; the one-element
    tuple it returns is identified with its element. *)
Definition generate (DEFAULT_PROFILE : string) (profiles_dir : gmap string file)
    (cache : gmap string Profile) (seed prompt_index : Z)
    (profile : option string) (prefix suffix : string)
  : gmap string Profile * M string :=
  let profile := default DEFAULT_PROFILE profile in
  let loaded :=
    match cache !! profile with
    | Some _ => Returned cache
    | None =>
        match load_profile profiles_dir profile with
        | Returned data => Returned (<[profile := data]> cache)
        | Raised e => Raised e
        | Unmodelled => Unmodelled
        end
    end in
  match loaded with
  | Raised (FileNotFoundError msg)
  | Raised (ValueError msg)
  | Raised (JSONDecodeError msg) =>
      (cache, mret ("[Error loading profile '" +:+ profile +:+ "': " +:+ msg +:+ "]"))
  | Raised e => (cache, raise e)
  | Unmodelled => (cache, lift Unmodelled)
  | Returned cache' =>
      (cache',
       profile_data ← subscript (cache' !! profile) profile;
       prompt ← generate_prompt seed prompt_index profile_data;
       mret (if truthy prefix || truthy suffix
             then prefix +:+ prompt +:+ suffix
             else prompt))
  end.

(** [profile or cls.DEFAULT_PROFILE]: [None] and the empty string give the
    default. *)
Definition or_default (profile : option string) (DEFAULT_PROFILE : string) : string :=
  match profile with
  | Some p => if truthy p then p else DEFAULT_PROFILE
  | None => DEFAULT_PROFILE
  end.

Definition IS_CHANGED (DEFAULT_PROFILE : string) (seed prompt_index : Z)
    (profile : option string) (prefix suffix : string) : M Z :=
  let profile_str := or_default profile DEFAULT_PROFILE in
  h ← new_hasher_fed (encode profile_str);
  let profile_hash := XXH32.intdigest h in
  prompt_hash (Z.lxor seed profile_hash) [prompt_index; 0].

End Zero2JSONBaseNode.

(** ** Profile discovery

    [matches] stands for the names [f.name] of the regular files that
    [profiles_dir.glob(pattern)] yields, in the order the file system lists
    them; [dir_exists] for [profiles_dir.exists()]. *)

(** [sorted(names)]: strings compare by their code units. *)
Fixpoint insert_sorted (x : string) (l : list string) : list string :=
  match l with
  | [] => [x]
  | y :: l' => if String.leb x y then x :: l else y :: insert_sorted x l'
  end.

Definition sorted (l : list string) : list string := foldr insert_sorted [] l.

(** [l.remove(x)]: drops the first occurrence (the caller has checked that
    there is one). *)
Fixpoint list_remove (x : string) (l : list string) : list string :=
  match l with
  | [] => []
  | y :: l' => if String.eqb x y then l' else y :: list_remove x l'
  end.

Definition discover_profiles (dir_exists : bool) (matches : list string)
    (prefix : string) : list string :=
  if negb dir_exists then ["default.json"]
  else
    let profiles := sorted matches in
    let default_name :=
      if Zero2JSONBaseNode.truthy prefix then prefix +:+ "default.json"
      else "default.json" in
    let profiles :=
      if bool_decide (default_name ∈ profiles)
      then default_name :: list_remove default_name profiles
      else profiles in
    match profiles with
    | [] => ["default.json"]
    | _ => profiles
    end.

(** ** Utility nodes (nodes/utility_nodes.py) *)

Module Z2J_BatchGenerator.

(** [range(count)] *)
Definition range (count : Z) : list Z :=
  map Z.of_nat (seq 0 (Z.to_nat count)).

(** The loop [for i in range(count)] appending to [prompts]. *)
Fixpoint collect (seed start_index : Z) (profile_data : Profile)
    (indices : list Z) (prompts : list string) : M (list string) :=
  match indices with
  | [] => mret prompts
  | i :: rest =>
      prompt ← generate_prompt seed (start_index + i) profile_data;
      collect seed start_index profile_data rest (prompts ++ [prompt])
  end.

(** [[f"[{i}] {p}" for i, p in enumerate(prompts)]] from ordinal [i]. *)
Fixpoint numbered (i : Z) (prompts : list string) : list string :=
  match prompts with
  | [] => []
  | p :: rest => ("[" +:+ pretty i +:+ "] " +:+ p) :: numbered (i + 1) rest
  end.

Definition newline : string := String (ascii_of_nat 10) EmptyString.

(** [str(e)] of the exceptions [load_profile] raises. *)
Definition exn_str (e : exn) : option string :=
  match e with
  | FileNotFoundError msg | ValueError msg | JSONDecodeError msg => Some msg
  | _ => None
  end.

Definition generate_batch (profiles_dir : gmap string file)
    (seed start_index count : Z) (profile separator : string)
  : M (string * string) :=
  match load_profile profiles_dir profile with
  | Raised e =>
      match exn_str e with
      | Some msg => mret ("Error: " +:+ msg, "[]")
      | None => lift Unmodelled
      end
  | Unmodelled => lift Unmodelled
  | Returned profile_data =>
      prompts ← collect seed start_index profile_data (range count) [];
      mret (String.concat separator prompts,
            String.concat newline (numbered 0 prompts))
  end.

Definition IS_CHANGED (seed start_index count : Z) (profile separator : string)
  : M Z :=
  h ← new_hasher_fed (encode profile);
  let profile_hash := XXH32.intdigest h in
  prompt_hash (Z.lxor seed profile_hash) [start_index; count].

End Z2J_BatchGenerator.

Module Z2J_SeedMixer.

Definition mix_seeds (seed_1 seed_2 seed_3 seed_4 : Z) : M Z :=
  h ← new_hasher 0;
  b ← lift (to_bytes_4_little seed_1);
  let h := XXH32.update h b in
  b ← lift (to_bytes_4_little seed_2);
  let h := XXH32.update h b in
  b ← lift (to_bytes_4_little seed_3);
  let h := XXH32.update h b in
  b ← lift (to_bytes_4_little seed_4);
  let h := XXH32.update h b in
  mret (XXH32.intdigest h).

Definition IS_CHANGED (seed_1 seed_2 seed_3 seed_4 : Z) : M Z :=
  h ← new_hasher 0;
  b ← lift (to_bytes_4_little seed_1);
  let h := XXH32.update h b in
  b ← lift (to_bytes_4_little seed_2);
  let h := XXH32.update h b in
  mret (XXH32.intdigest h).

End Z2J_SeedMixer.

(** ** Vocabulary of the specification *)

(** Range of an unsigned 32-bit integer. *)
Definition uint32 (x : Z) : bool := (0 <=? x) && (x <? 2 ^ 32).

(** The hash of the specification: seeded with [seed & 0xFFFFFFFF] and fed
    every coordinate as four little-endian bytes. *)
Definition coordinate_hash (seed : Z) (coords : list Z) : Z :=
  XXH32.digest (Z.land seed 0xFFFFFFFF) (concat (map (le_bytes 4) coords)).

(** [sanity_buffer n g]: the reference sanity buffer of the XXH32 test
    suite: the top byte of each state of the generator [g := g * g mod 2^32]. *)
Fixpoint sanity_buffer (n : nat) (g : Z) : bytes :=
  match n with
  | O => []
  | S n' => Z.shiftr g 24 :: sanity_buffer n' (U32.mul g g)
  end.

(** Product of a list of integers (1 for the empty list). *)
Definition product (l : list Z) : Z := foldr Z.mul 1 l.

(** The profile of the combinatorics example. *)
Definition two_by_three : Profile :=
  mk_profile (Some ["t1"; "t2"]) (Some [("a", ["x"; "y"; "z"])]) None None None.

(** Two templates and an empty [pools] mapping. *)
Definition templates_only : Profile :=
  mk_profile (Some ["t1"; "t2"]) (Some []) None None None.

(** The profile of the unknown-slot example: the template names a slot
    [unknown] for which there is no pool. *)
Definition unknown_slot : Profile :=
  mk_profile (Some ["A {known} B {unknown} C"]) (Some [("known", ["x"])])
             None None None.

(** One template without slots and an empty [pools] mapping. *)
Definition plain : Profile :=
  mk_profile (Some ["t"]) (Some []) None None None.

(** A JSON object with both keys present, no template, and a pool without
    items. *)
Definition empty_vocabulary : Profile :=
  mk_profile (Some []) (Some [("a", [])]) None None None.

(** A JSON object that lacks the [pools] key. *)
Definition no_pools : Profile :=
  mk_profile (Some ["t"]) None None None None.

(** The validated domain of the specification: at least one template, and
    no pool without items. *)
Definition validated (ts : list string) (ps : list (string * list string)) : Prop :=
  ts ≠ [] ∧ Forall (λ kp, kp.2 ≠ []) ps.

(** The unknown-slot profile with its informational fields filled in. *)
Definition unknown_slot_described : Profile :=
  mk_profile (Some ["A {known} B {unknown} C"]) (Some [("known", ["x"])])
             (Some "demo") (Some "a description") (Some "1.0").

(** Three templates and two pools of different sizes. *)
Definition weather : Profile :=
  mk_profile (Some ["{sky} over {place}"; "{place}, {sky}"; "only {sky}"])
             (Some [("sky", ["sun"; "rain"; "fog"; "snow"; "hail"]);
                    ("place", ["hills"; "sea"])])
             None None None.

(** Reading a little-endian byte string back as an unsigned integer. *)
Definition le_decode (bs : bytes) : Z := foldr (λ b acc, b + 256 * acc) 0 bs.

(** Reading four little-endian bytes back as a signed 32-bit integer, and
    a packed byte string back as its coordinates
    ([struct.unpack] with the format of [prompt_hash]). *)
Definition to_signed32 (u : Z) : Z := if u <? 2 ^ 31 then u else u - 2 ^ 32.

Fixpoint struct_unpack_i (bs : bytes) : list Z :=
  match bs with
  | b0 :: b1 :: b2 :: b3 :: rest =>
      to_signed32 (le_decode [b0; b1; b2; b3]) :: struct_unpack_i rest
  | _ => []
  end.

(** The exceptions formatting a template can end with. *)
Definition format_exn (e : exn) : Prop :=
  match e with
  | KeyError _ | ValueError _ | IndexError => True
  | _ => False
  end.

(** The exceptions a render of a profile with both keys can end with. *)
Definition render_exn (e : exn) : Prop :=
  match e with
  | StructError | ZeroDivisionError | ValueError _ | IndexError => True
  | _ => False
  end.

(** A text without braces. *)
Fixpoint brace_free (s : string) : bool :=
  match s with
  | EmptyString => true
  | String c s' => negb (eqb_char c "{") && negb (eqb_char c "}") && brace_free s'
  end.

(** Ascending order of names, as [sorted] compares them. *)
Definition name_le (a b : string) : Prop := String.leb a b = true.

(** A plain file name: not empty, not [.] or [..], without a path
    separator, so that [profiles_dir / name] is an entry of the profiles
    directory. *)
Fixpoint has_separator (s : string) : bool :=
  match s with
  | EmptyString => false
  | String c s' => eqb_char c "/" || eqb_char c "\" || has_separator s'
  end.

Definition entry_name (name : string) : bool :=
  negb (String.eqb name "") && negb (String.eqb name ".")
  && negb (String.eqb name "..") && negb (has_separator name).

(** * Properties *)

(** ** XXH32 test vectors

    The empty input, a short text, and the reference sanity buffer started
    at [PRIME32_1], which exercises the 16-byte stripes, the 4-byte lanes
    and the tail. *)
Example xxh32_empty :
  XXH32.digest 0 [] = 0x02CC5D05 /\ XXH32.digest XXH32.PRIME32_1 [] = 0x36B78AE7.
Proof. split; vm_compute; reflexivity. Qed.

Example xxh32_abc : XXH32.digest 0 (encode "abc") = 0x32D153FF.
Proof. vm_compute. reflexivity. Qed.

Example xxh32_sanity_14 :
  XXH32.digest 0 (sanity_buffer 14 XXH32.PRIME32_1) = 0xE5AA0AB4 /\
  XXH32.digest XXH32.PRIME32_1 (sanity_buffer 14 XXH32.PRIME32_1) = 0x4481951D.
Proof. split; vm_compute; reflexivity. Qed.

Example xxh32_sanity_101 :
  XXH32.digest 0 (sanity_buffer 101 XXH32.PRIME32_1) = 0x1F1AA412 /\
  XXH32.digest XXH32.PRIME32_1 (sanity_buffer 101 XXH32.PRIME32_1) = 0x498EC8E2.
Proof. split; vm_compute; reflexivity. Qed.

(** ** 32-bit arithmetic *)

Lemma wrap_range (x : Z) : 0 <= U32.wrap x < U32.modulus.
Proof. unfold U32.wrap, U32.modulus. apply Z.mod_pos_bound. lia. Qed.

Lemma land_mask (x : Z) : Z.land x U32.mask = U32.wrap x.
Proof.
  unfold U32.mask, U32.wrap, U32.modulus.
  change 0xFFFFFFFF with (Z.ones 32). now rewrite Z.land_ones by lia.
Qed.

(** ** The effect monad *)

Section MonadLaws.
Context {A B C : Type}.

Lemma bind_returned (tr : list event) (a : A) (f : A → M B) :
  (tr, Returned a) ≫= f = (tr ++ trace (f a), result (f a)).
Proof. unfold mbind, M_bind, trace, result. now destruct (f a). Qed.

Lemma bind_raised (tr : list event) (e : exn) (f : A → M B) :
  (tr, Raised e) ≫= f = (tr, Raised e).
Proof. reflexivity. Qed.

Lemma bind_mret_l (a : A) (f : A → M B) : mret a ≫= f = f a.
Proof. unfold mret, M_ret. rewrite bind_returned. now destruct (f a). Qed.

Lemma bind_mret_r (m : M A) : m ≫= mret = m.
Proof.
  destruct m as [tr [a | e |]]; unfold mbind, M_bind, mret, M_ret; simpl;
    now rewrite ?app_nil_r.
Qed.

Lemma bind_assoc (m : M A) (f : A → M B) (g : B → M C) :
  (m ≫= f) ≫= g = m ≫= (λ a, f a ≫= g).
Proof.
  destruct m as [tr [a | e |]]; try reflexivity.
  unfold mbind, M_bind.
  destruct (f a) as [tr1 [b | e |]]; try reflexivity.
  destruct (g b) as [tr2 r]. now rewrite app_assoc.
Qed.

End MonadLaws.

(** ** Packing and hashing *)

Lemma struct_pack_i_fits (coords : list Z) :
  forallb in_int32 coords = true →
  struct_pack_i coords = Returned (concat (map (le_bytes 4) coords)).
Proof.
  induction coords as [| x rest IH]; [reflexivity |].
  cbn [forallb]. intros [Hx Hrest]%andb_prop.
  cbn [struct_pack_i map concat]. now rewrite Hx, IH.
Qed.

Lemma struct_pack_i_overflow (x : Z) (rest : list Z) :
  in_int32 x = false → struct_pack_i (x :: rest) = Raised StructError.
Proof. intros Hx. cbn [struct_pack_i]. now rewrite Hx. Qed.

Lemma prompt_hash_fits (seed : Z) (coords : list Z) :
  forallb in_int32 coords = true →
  prompt_hash seed coords =
    ([Hasher (Z.land seed 0xFFFFFFFF)], Returned (coordinate_hash seed coords)).
Proof.
  intros Hfit. unfold prompt_hash, new_hasher, lift.
  rewrite (struct_pack_i_fits _ Hfit). reflexivity.
Qed.

Lemma prompt_hash_overflow (seed x : Z) (rest : list Z) :
  in_int32 x = false →
  prompt_hash seed (x :: rest) =
    ([Hasher (Z.land seed 0xFFFFFFFF)], Raised StructError).
Proof.
  intros Hx. unfold prompt_hash, new_hasher, lift.
  rewrite (struct_pack_i_overflow _ _ Hx). reflexivity.
Qed.

Lemma len_pos {A} (l : list A) : l ≠ [] → 0 < len l.
Proof. destruct l; [congruence |]. unfold len. simpl. lia. Qed.

Lemma hash_to_index_pos (h n : Z) :
  0 < n → hash_to_index h n = mret (h mod n).
Proof.
  intros Hn. unfold hash_to_index.
  destruct (Z.eqb_spec n 0); [lia | reflexivity].
Qed.

Lemma getitem_mod {A} (l : list A) (h : Z) :
  l ≠ [] →
  ∃ x, l !! Z.to_nat (h mod len l) = Some x ∧ getitem l (h mod len l) = Returned x.
Proof.
  intros Hl. pose proof (len_pos l Hl) as Hpos.
  pose proof (Z.mod_pos_bound h (len l) Hpos) as [Hlo Hhi].
  destruct (lookup_lt_is_Some_2 l (Z.to_nat (h mod len l))) as [x Hx].
  { unfold len in *. lia. }
  exists x. split; [exact Hx |].
  unfold getitem. fold (len l).
  destruct (Z.ltb_spec (h mod len l) 0); [lia |].
  destruct (Z.leb_spec 0 (h mod len l)); [| lia].
  destruct (Z.ltb_spec (h mod len l) (len l)); [| lia].
  cbn [andb]. now rewrite Hx.
Qed.

(** ** Combinatorics *)

Lemma fold_left_product (lens : list (list string)) (total : Z) :
  fold_left (λ total pool, total * len pool) lens total =
  total * product (map len lens).
Proof.
  revert total. induction lens as [| pool rest IH]; intros total; simpl.
  - lia.
  - rewrite IH. unfold product. simpl. lia.
Qed.

(** C4, as stated, fails: with two templates and no pools the result is 2,
    not 1. *)
Lemma combinations_of_templates_only :
  pools templates_only = Some [] ∧
  calculate_combinations templates_only = 2 ∧
  calculate_combinations templates_only ≠ 1.
Proof. split; [reflexivity | split; [reflexivity |]]. vm_compute. discriminate. Qed.

(** C4 (amended): [calculate_combinations] is the number of templates times
    the product of the pool sizes; with an empty [pools] mapping the product
    is 1, so the result is the number of templates; the example profile
    (two templates, one pool of three) gives 6. *)
Theorem calculate_combinations_product :
  (∀ profile,
     calculate_combinations profile =
     len (default [] (templates profile)) *
     product (map len (map snd (default [] (pools profile))))) ∧
  (∀ ts n d v,
     calculate_combinations (mk_profile (Some ts) (Some []) n d v) = len ts) ∧
  calculate_combinations two_by_three = 6.
Proof.
  split; [| split].
  - intros profile. unfold calculate_combinations. apply fold_left_product.
  - intros ts n d v. reflexivity.
  - reflexivity.
Qed.

(** ** Seed mixer *)

Local Opaque XXH32.digest.

Lemma to_bytes_4_little_uint32 (x : Z) :
  to_bytes_4_little x =
  if uint32 x then Returned (le_bytes 4 x) else Raised OverflowError.
Proof. reflexivity. Qed.

(** C8: [mix_seeds] creates one unseeded hasher and feeds it the four seeds,
    each as four little-endian bytes, in argument order (it raises
    [OverflowError] when a seed is not an unsigned 32-bit integer); it is
    order-sensitive: [mix_seeds 1 2 0 0] and [mix_seeds 2 1 0 0] differ. *)
Theorem mix_seeds_order_sensitive :
  (∀ s1 s2 s3 s4,
     Z2J_SeedMixer.mix_seeds s1 s2 s3 s4 =
     if uint32 s1 && uint32 s2 && uint32 s3 && uint32 s4
     then ([Hasher 0],
           Returned (XXH32.digest 0 (le_bytes 4 s1 ++ le_bytes 4 s2 ++
                                     le_bytes 4 s3 ++ le_bytes 4 s4)))
     else ([Hasher 0], Raised OverflowError)) ∧
  Z2J_SeedMixer.mix_seeds 1 2 0 0 = ([Hasher 0], Returned 3722735888) ∧
  Z2J_SeedMixer.mix_seeds 2 1 0 0 = ([Hasher 0], Returned 2407738565) ∧
  result (Z2J_SeedMixer.mix_seeds 1 2 0 0) ≠ result (Z2J_SeedMixer.mix_seeds 2 1 0 0).
Proof.
  split; [| split; [| split]].
  - intros s1 s2 s3 s4. unfold Z2J_SeedMixer.mix_seeds, new_hasher, lift.
    rewrite !to_bytes_4_little_uint32.
    destruct (uint32 s1); [| reflexivity].
    destruct (uint32 s2); [| reflexivity].
    destruct (uint32 s3); [| reflexivity].
    destruct (uint32 s4); [| reflexivity].
    cbn. unfold XXH32.intdigest, XXH32.update, XXH32.xxh32. cbn.
    reflexivity.
  - vm_compute. reflexivity.
  - vm_compute. reflexivity.
  - vm_compute. discriminate.
Qed.

(** C10: the mixer's change token reads [seed_1] and [seed_2] only, whereas
    the mixed seed changes with [seed_3] and with [seed_4]. *)
Theorem mixer_IS_CHANGED_ignores_seed_3_4 :
  (∀ s1 s2 s3 s4 s3' s4',
     Z2J_SeedMixer.IS_CHANGED s1 s2 s3 s4 = Z2J_SeedMixer.IS_CHANGED s1 s2 s3' s4') ∧
  (∀ s1 s2 s3 s4,
     Z2J_SeedMixer.IS_CHANGED s1 s2 s3 s4 =
     if uint32 s1 && uint32 s2
     then ([Hasher 0], Returned (XXH32.digest 0 (le_bytes 4 s1 ++ le_bytes 4 s2)))
     else ([Hasher 0], Raised OverflowError)) ∧
  result (Z2J_SeedMixer.mix_seeds 0 0 0 0) ≠ result (Z2J_SeedMixer.mix_seeds 0 0 1 0) ∧
  result (Z2J_SeedMixer.mix_seeds 0 0 0 0) ≠ result (Z2J_SeedMixer.mix_seeds 0 0 0 1).
Proof.
  split; [| split; [| split]].
  - reflexivity.
  - intros s1 s2 s3 s4. unfold Z2J_SeedMixer.IS_CHANGED, new_hasher, lift.
    rewrite !to_bytes_4_little_uint32.
    destruct (uint32 s1); [| reflexivity].
    destruct (uint32 s2); reflexivity.
  - vm_compute. discriminate.
  - vm_compute. discriminate.
Qed.

(** ** Running the renderer *)

Lemma bind_lift_returned {A B} (a : A) (f : A → M B) :
  lift (Returned a) ≫= f = f a.
Proof. apply (bind_mret_l a f). Qed.

Lemma getitem_singleton {A} (x : A) : getitem [x] 0 = Returned x.
Proof. reflexivity. Qed.

Lemma len_singleton {A} (x : A) : len [x] = 1.
Proof. reflexivity. Qed.

Lemma in_int32_pair (a b : Z) :
  in_int32 a = true → in_int32 b = true → forallb in_int32 [a; b] = true.
Proof. intros Ha Hb. cbn [forallb]. now rewrite Ha, Hb. Qed.

Lemma trace_mret {A} (a : A) : trace (mret a) = [].
Proof. reflexivity. Qed.

Lemma result_mret {A} (a : A) : result (mret a) = Returned a.
Proof. reflexivity. Qed.

Ltac run_step :=
  first
    [ rewrite bind_mret_l
    | rewrite bind_lift_returned
    | rewrite bind_returned
    | rewrite bind_raised
    | rewrite trace_mret
    | rewrite result_mret
    | rewrite app_nil_r ];
  cbn beta; cbn [trace result fst snd].

Lemma format_unknown_slot :
  format_template "A {known} B {unknown} C" [("known", ["x"])]
                  (<["known" := "x"]> ∅) =
  ([], Returned "A x B {unknown} C").
Proof. vm_compute. reflexivity. Qed.

(** C1: on the unknown-slot example the renderer does not raise for a
    position index that packs as a signed 32-bit integer, and keeps all
    literal text, but the slot without a pool stays as written, in braces:
    the result is [A x B {unknown} C], not [A x B [unknown] C]. *)
Theorem unknown_slot_keeps_braces (seed idx : Z) :
  in_int32 idx = true →
  generate_prompt seed idx unknown_slot =
    ([Hasher (Z.land seed 0xFFFFFFFF); Hasher (Z.land seed 0xFFFFFFFF)],
     Returned "A x B {unknown} C") ∧
  result (generate_prompt seed idx unknown_slot) ≠ Returned "A x B [unknown] C".
Proof.
  intros Hidx.
  assert (generate_prompt seed idx unknown_slot =
          ([Hasher (Z.land seed 0xFFFFFFFF); Hasher (Z.land seed 0xFFFFFFFF)],
           Returned "A x B {unknown} C")) as Hrun.
  { unfold generate_prompt, unknown_slot.
    cbn [templates pools subscript select_components].
    repeat first
      [ run_step
      | rewrite prompt_hash_fits by (apply in_int32_pair; [exact Hidx | reflexivity])
      | rewrite len_singleton
      | progress cbn [select_components]
      | rewrite hash_to_index_pos by lia
      | rewrite Z.mod_1_r
      | rewrite getitem_singleton ].
    rewrite format_unknown_slot. reflexivity. }
  split; [exact Hrun |].
  rewrite Hrun. cbn [result snd]. intros Heq. inversion Heq.
Qed.

Lemma unknown_slot_keeps_braces_witness :
  in_int32 0 = true ∧
  generate_prompt 0 0 unknown_slot =
    ([Hasher 0; Hasher 0], Returned "A x B {unknown} C").
Proof.
  split; [reflexivity |].
  exact (proj1 (unknown_slot_keeps_braces 0 0 eq_refl)).
Defined.

(** C3: a position index outside the signed 32-bit range makes the first
    [prompt_hash] raise [struct.error], whatever the profile's templates
    and pools are; the node's inputs admit such indices (up to
    [0xFFFFFFFF]). *)
Theorem generate_prompt_raises_on_large_index
    (seed idx : Z) (profile : Profile) (ts : list string)
    (ps : list (string * list string)) :
  in_int32 idx = false →
  templates profile = Some ts →
  pools profile = Some ps →
  generate_prompt seed idx profile =
    ([Hasher (Z.land seed 0xFFFFFFFF)], Raised StructError).
Proof.
  intros Hidx Hts Hps. unfold generate_prompt. rewrite Hts, Hps.
  cbn [subscript]. do 2 run_step.
  rewrite prompt_hash_overflow by exact Hidx. reflexivity.
Qed.

Lemma generate_prompt_raises_on_large_index_witness :
  in_int32 2147483648 = false ∧
  generate_prompt 0 2147483648 plain = ([Hasher 0], Raised StructError).
Proof.
  split; [reflexivity |].
  exact (generate_prompt_raises_on_large_index
           0 2147483648 plain ["t"] [] eq_refl eq_refl eq_refl).
Defined.

(** ** Loading and validation *)

(** C2, as stated, fails: a profile with an empty [templates] list and an
    empty pool passes [load_profile]; the node then creates a hasher for
    the template choice and only fails at the modulo by zero. *)
Lemma empty_vocabulary_is_accepted :
  templates empty_vocabulary = Some [] ∧
  pools empty_vocabulary = Some [("a", [])] ∧
  load_profile {["empty.json" := Document empty_vocabulary]} "empty.json" =
    Returned empty_vocabulary ∧
  snd (Zero2JSONBaseNode.generate
         "default.json" {["empty.json" := Document empty_vocabulary]} ∅
         0 0 (Some "empty.json") "" "") =
    ([Hasher 0], Raised ZeroDivisionError).
Proof. repeat split; vm_compute; reflexivity. Qed.

(** C2 (amended): for a profile file holding a JSON object, [load_profile]
    accepts it exactly when both keys [templates] and [pools] are present,
    whatever their contents; otherwise it raises [ValueError], and the node
    then returns the bracketed error text without creating any hasher and
    without touching its cache. *)
Theorem load_profile_checks_key_presence
    (profiles_dir : gmap string file) (profile_name : string) (profile : Profile) :
  profiles_dir !! profile_name = Some (Document profile) →
  (load_profile profiles_dir profile_name = Returned profile ↔
   is_Some (templates profile) ∧ is_Some (pools profile)) ∧
  (templates profile = None ∨ pools profile = None →
   ∃ msg,
     load_profile profiles_dir profile_name = Raised (ValueError msg) ∧
     ∀ DEFAULT_PROFILE (cache : gmap string Profile) seed prompt_index prefix suffix,
       cache !! profile_name = None →
       Zero2JSONBaseNode.generate DEFAULT_PROFILE profiles_dir cache
         seed prompt_index (Some profile_name) prefix suffix =
       (cache,
        ([], Returned ("[Error loading profile '" +:+ profile_name +:+ "': "
                       +:+ msg +:+ "]")))).
Proof.
  intros Hfile. split.
  - unfold load_profile. rewrite Hfile.
    destruct (templates profile) as [ts |], (pools profile) as [ps |];
      split; intros H; try discriminate H; try reflexivity; eauto;
      destruct H as [[? H1] [? H2]]; discriminate.
  - intros Hmissing.
    assert (∃ msg, load_profile profiles_dir profile_name = Raised (ValueError msg))
      as [msg Hload].
    { unfold load_profile. rewrite Hfile.
      destruct (templates profile) as [ts |]; [| eauto].
      destruct (pools profile) as [ps |]; [| eauto].
      destruct Hmissing; discriminate. }
    exists msg. split; [exact Hload |].
    intros DEFAULT_PROFILE cache seed prompt_index prefix suffix Hcache.
    unfold Zero2JSONBaseNode.generate. cbv zeta.
    change (default DEFAULT_PROFILE (Some profile_name)) with profile_name.
    rewrite Hcache, Hload. reflexivity.
Qed.

Lemma load_profile_checks_key_presence_witness :
  ({["broken.json" := Document no_pools]} : gmap string file) !! "broken.json" =
    Some (Document no_pools) ∧
  ¬ (load_profile {["broken.json" := Document no_pools]} "broken.json" =
       Returned no_pools).
Proof.
  assert (({["broken.json" := Document no_pools]} : gmap string file)
            !! "broken.json" = Some (Document no_pools)) as Hfile
    by (vm_compute; reflexivity).
  split; [exact Hfile |].
  intros Hload.
  destruct (load_profile_checks_key_presence _ _ _ Hfile) as [Hiff _].
  apply Hiff in Hload. destruct Hload as [_ [ps Hps]]. discriminate Hps.
Defined.

(** ** The base node *)

Lemma append_empty_r (s : string) : s +:+ "" = s.
Proof.
  induction s as [| c s IH]; [reflexivity |].
  change (String c s +:+ "") with (String c (s +:+ "")). now f_equal.
Qed.

Lemma decorate (prefix prompt suffix : string) :
  (if Zero2JSONBaseNode.truthy prefix || Zero2JSONBaseNode.truthy suffix
   then prefix +:+ prompt +:+ suffix else prompt) =
  prefix +:+ prompt +:+ suffix.
Proof.
  destruct prefix as [| a prefix]; [| reflexivity].
  destruct suffix as [| b suffix]; [| reflexivity].
  simpl. now rewrite append_empty_r.
Qed.

(** C9: when the profile is in the cache, or is absent from it and loads
    successfully, [generate] runs the renderer on that profile and returns
    its text between [prefix] and [suffix]; an exception of the renderer
    passes through, and the profile ends up cached. *)
Theorem generate_wraps_prompt
    (DEFAULT_PROFILE : string) (profiles_dir : gmap string file)
    (cache : gmap string Profile) (seed prompt_index : Z)
    (profile : option string) (prefix suffix : string) (data : Profile) :
  cache !! default DEFAULT_PROFILE profile = Some data ∨
  (cache !! default DEFAULT_PROFILE profile = None ∧
   load_profile profiles_dir (default DEFAULT_PROFILE profile) = Returned data) →
  Zero2JSONBaseNode.generate DEFAULT_PROFILE profiles_dir cache
    seed prompt_index profile prefix suffix =
  (<[default DEFAULT_PROFILE profile := data]> cache,
   generate_prompt seed prompt_index data
   ≫= λ prompt, mret (prefix +:+ prompt +:+ suffix)) ∧
  ∀ prompt,
    result (generate_prompt seed prompt_index data) = Returned prompt →
    result (snd (Zero2JSONBaseNode.generate DEFAULT_PROFILE profiles_dir cache
                   seed prompt_index profile prefix suffix)) =
    Returned (prefix +:+ prompt +:+ suffix).
Proof.
  intros Hsource.
  assert (Zero2JSONBaseNode.generate DEFAULT_PROFILE profiles_dir cache
            seed prompt_index profile prefix suffix =
          (<[default DEFAULT_PROFILE profile := data]> cache,
           generate_prompt seed prompt_index data
           ≫= λ prompt, mret (prefix +:+ prompt +:+ suffix))) as Hrun.
  { unfold Zero2JSONBaseNode.generate. cbv zeta.
    destruct Hsource as [Hhit | [Hmiss Hload]].
    - rewrite Hhit. cbv beta iota. rewrite Hhit. cbn [subscript].
      rewrite insert_id by exact Hhit.
      f_equal. rewrite bind_mret_l.
      destruct (generate_prompt seed prompt_index data) as [tr [s | e |]];
        try reflexivity.
      unfold mbind, M_bind, mret, M_ret. now rewrite decorate.
    - rewrite Hmiss, Hload. cbv beta iota. rewrite lookup_insert_eq.
      cbn [subscript].
      f_equal. rewrite bind_mret_l.
      destruct (generate_prompt seed prompt_index data) as [tr [s | e |]];
        try reflexivity.
      unfold mbind, M_bind, mret, M_ret. now rewrite decorate. }
  split; [exact Hrun |].
  intros prompt Hprompt. rewrite Hrun. cbn [snd].
  destruct (generate_prompt seed prompt_index data) as [tr [s | e |]];
    cbn in Hprompt; try discriminate Hprompt.
  injection Hprompt as ->. reflexivity.
Qed.

Lemma generate_wraps_prompt_witness :
  (∅ : gmap string Profile) !! default "default.json" (Some "u.json") = None ∧
  load_profile {["u.json" := Document unknown_slot]}
               (default "default.json" (Some "u.json")) = Returned unknown_slot ∧
  result (snd (Zero2JSONBaseNode.generate
                 "default.json" {["u.json" := Document unknown_slot]} ∅
                 7 3 (Some "u.json") "<" ">")) =
    Returned ("<" +:+ "A x B {unknown} C" +:+ ">").
Proof.
  assert ((∅ : gmap string Profile) !! default "default.json" (Some "u.json") = None)
    as Hmiss by reflexivity.
  assert (load_profile {["u.json" := Document unknown_slot]}
            (default "default.json" (Some "u.json")) = Returned unknown_slot)
    as Hload by (vm_compute; reflexivity).
  split; [exact Hmiss | split; [exact Hload |]].
  apply (generate_wraps_prompt "default.json" _ ∅ 7 3 (Some "u.json") "<" ">"
           unknown_slot (or_intror (conj Hmiss Hload))).
  vm_compute. reflexivity.
Defined.

(** ** Batches *)

Lemma bind_ext {A B} (m : M A) (f g : A → M B) :
  (∀ a, f a = g a) → m ≫= f = m ≫= g.
Proof.
  intros Hfg. destruct m as [tr [a | e |]]; try reflexivity.
  unfold mbind, M_bind. now rewrite Hfg.
Qed.

Lemma collect_mapM (seed start_index : Z) (data : Profile) (indices : list Z) :
  ∀ prompts,
    Z2J_BatchGenerator.collect seed start_index data indices prompts =
    mapM (λ i, generate_prompt seed (start_index + i) data) indices
    ≫= λ rest, mret (prompts ++ rest).
Proof.
  induction indices as [| i indices IH]; intros prompts.
  - cbn [Z2J_BatchGenerator.collect mapM]. rewrite bind_mret_l.
    now rewrite app_nil_r.
  - cbn [Z2J_BatchGenerator.collect mapM]. rewrite bind_assoc.
    apply bind_ext. intros prompt. rewrite IH, bind_assoc.
    apply bind_ext. intros rest. rewrite bind_mret_l.
    now rewrite <- app_assoc.
Qed.

Lemma elem_of_range (count i : Z) :
  i ∈ Z2J_BatchGenerator.range count → 0 <= i < count.
Proof.
  unfold Z2J_BatchGenerator.range. intros Hin.
  apply list_elem_of_fmap in Hin as (n & -> & Hn).
  apply elem_of_seq in Hn. lia.
Qed.

Lemma mapM_returned {A B} (f : A → M B) (g : A → B) (l : list A) :
  (∀ x, x ∈ l → result (f x) = Returned (g x)) →
  result (mapM f l) = Returned (map g l).
Proof.
  induction l as [| x l IH]; intros Hall; [reflexivity |].
  cbn [mapM map].
  pose proof (Hall x (list_elem_of_here x l)) as Hx.
  destruct (f x) as [tr [y | e |]]; cbn in Hx; try discriminate Hx.
  injection Hx as ->.
  assert (result (mapM f l) = Returned (map g l)) as Hl.
  { apply IH. intros z Hz. apply Hall. now apply list_elem_of_further. }
  rewrite bind_returned. cbn [result snd].
  destruct (mapM f l) as [tr' [k | e |]]; cbn in Hl; try discriminate Hl.
  injection Hl as ->. reflexivity.
Qed.

Lemma mapM_fmap {A B C} (f : B → M C) (g : A → B) (l : list A) :
  mapM f (map g l) = mapM (λ x, f (g x)) l.
Proof.
  induction l as [| x l IH]; [reflexivity |].
  cbn [map mapM]. apply bind_ext. intros y. now rewrite IH.
Qed.

Lemma generate_batch_loaded
    (profiles_dir : gmap string file) (seed start_index count : Z)
    (profile separator : string) (data : Profile) :
  load_profile profiles_dir profile = Returned data →
  Z2J_BatchGenerator.generate_batch profiles_dir seed start_index count
                                    profile separator =
    (mapM (λ i : nat, generate_prompt seed (start_index + Z.of_nat i) data)
          (seq 0 (Z.to_nat count))
     ≫= λ prompts,
          mret (String.concat separator prompts,
                String.concat Z2J_BatchGenerator.newline
                              (Z2J_BatchGenerator.numbered 0 prompts))).
Proof.
  intros Hload. unfold Z2J_BatchGenerator.generate_batch. rewrite Hload.
  rewrite collect_mapM, bind_assoc. unfold Z2J_BatchGenerator.range.
  rewrite mapM_fmap. apply bind_ext. intros rest. now rewrite bind_mret_l.
Qed.

(** C7: once the profile has loaded, [generate_batch] performs the single
    renders at [start_index + 0], [start_index + 1], ...,
    [start_index + count - 1], one after the other in that order, and joins
    their texts.  When these renders return [render (start_index + i)], the
    batch is built from a list of exactly [count] prompts whose [i]-th
    element is [render (start_index + i)].  For [count = 3] the two texts
    are the joins of the three single renders at [start_index],
    [start_index + 1] and [start_index + 2] (10, 11, 12 for
    [start_index = 10]). *)
Theorem generate_batch_is_sequence_of_renders
    (profiles_dir : gmap string file) (seed start_index count : Z)
    (profile separator : string) (data : Profile) :
  load_profile profiles_dir profile = Returned data →
  Z2J_BatchGenerator.generate_batch profiles_dir seed start_index count
                                    profile separator =
    (mapM (λ i : nat, generate_prompt seed (start_index + Z.of_nat i) data)
          (seq 0 (Z.to_nat count))
     ≫= λ prompts,
          mret (String.concat separator prompts,
                String.concat Z2J_BatchGenerator.newline
                              (Z2J_BatchGenerator.numbered 0 prompts))) ∧
  (∀ render : Z → string,
     (∀ i, 0 <= i < count →
           result (generate_prompt seed (start_index + i) data) =
           Returned (render (start_index + i))) →
     ∃ prompts : list string,
       result (Z2J_BatchGenerator.generate_batch profiles_dir seed start_index
                                                 count profile separator) =
       Returned (String.concat separator prompts,
                 String.concat Z2J_BatchGenerator.newline
                               (Z2J_BatchGenerator.numbered 0 prompts)) ∧
       Z.of_nat (length prompts) = Z.max 0 count ∧
       ∀ i, 0 <= i < count →
            prompts !! Z.to_nat i = Some (render (start_index + i))) ∧
  (count = 3 →
   ∀ r0 r1 r2 : string,
     result (generate_prompt seed start_index data) = Returned r0 →
     result (generate_prompt seed (start_index + 1) data) = Returned r1 →
     result (generate_prompt seed (start_index + 2) data) = Returned r2 →
     result (Z2J_BatchGenerator.generate_batch profiles_dir seed start_index
                                               count profile separator) =
     Returned (String.concat separator [r0; r1; r2],
               String.concat Z2J_BatchGenerator.newline
                             ["[0] " +:+ r0; "[1] " +:+ r1; "[2] " +:+ r2])).
Proof.
  intros Hload.
  pose proof (generate_batch_loaded profiles_dir seed start_index count
                                    profile separator data Hload) as Hrun.
  split; [exact Hrun | split].
  - intros render Hrender.
    exists (map (λ i : nat, render (start_index + Z.of_nat i))
                (seq 0 (Z.to_nat count))).
    split; [| split].
    + rewrite Hrun.
      pose proof (mapM_returned
                    (λ i : nat,
                       generate_prompt seed (start_index + Z.of_nat i) data)
                    (λ i : nat, render (start_index + Z.of_nat i))
                    (seq 0 (Z.to_nat count))) as Hall.
      assert (∀ n : nat, n ∈ seq 0 (Z.to_nat count) →
                result (generate_prompt seed (start_index + Z.of_nat n) data) =
                Returned (render (start_index + Z.of_nat n))) as Hseq.
      { intros n Hn. apply elem_of_seq in Hn. apply Hrender. lia. }
      specialize (Hall Hseq).
      destruct (mapM _ (seq 0 (Z.to_nat count))) as [tr [k | e |]];
        cbn in Hall; try discriminate Hall.
      injection Hall as ->. reflexivity.
    + rewrite length_map, length_seq. lia.
    + intros i Hi. rewrite list_lookup_fmap.
      rewrite lookup_seq_lt by lia. cbn [fmap option_fmap option_map].
      now rewrite Nat.add_0_l, Z2Nat.id by lia.
  - intros -> r0 r1 r2 H0 H1 H2. rewrite Hrun.
    change (seq 0 (Z.to_nat 3)) with [0%nat; 1%nat; 2%nat].
    cbn [mapM]. change (Z.of_nat 0) with 0. change (Z.of_nat 1) with 1.
    change (Z.of_nat 2) with 2. rewrite Z.add_0_r.
    destruct (generate_prompt seed start_index data) as [t0 [p0 | e |]];
      cbn in H0; try discriminate H0. injection H0 as ->.
    destruct (generate_prompt seed (start_index + 1) data) as [t1 [p1 | e |]];
      cbn in H1; try discriminate H1. injection H1 as ->.
    destruct (generate_prompt seed (start_index + 2) data) as [t2 [p2 | e |]];
      cbn in H2; try discriminate H2. injection H2 as ->.
    repeat run_step. reflexivity.
Qed.

Lemma generate_batch_is_sequence_of_renders_witness :
  load_profile {["w.json" := Document weather]} "w.json" = Returned weather ∧
  result (generate_prompt 42 10 weather) = Returned "hills, sun" ∧
  result (generate_prompt 42 (10 + 1) weather) = Returned "hills, rain" ∧
  result (generate_prompt 42 (10 + 2) weather) = Returned "only rain" ∧
  result (Z2J_BatchGenerator.generate_batch
            {["w.json" := Document weather]} 42 10 3 "w.json" " | ") =
  Returned (String.concat " | " ["hills, sun"; "hills, rain"; "only rain"],
            String.concat Z2J_BatchGenerator.newline
              ["[0] " +:+ "hills, sun"; "[1] " +:+ "hills, rain";
               "[2] " +:+ "only rain"]).
Proof.
  assert (load_profile {["w.json" := Document weather]} "w.json" =
            Returned weather) as Hload by (vm_compute; reflexivity).
  assert (result (generate_prompt 42 10 weather) = Returned "hills, sun")
    as H0 by (vm_compute; reflexivity).
  assert (result (generate_prompt 42 (10 + 1) weather) = Returned "hills, rain")
    as H1 by (vm_compute; reflexivity).
  assert (result (generate_prompt 42 (10 + 2) weather) = Returned "only rain")
    as H2 by (vm_compute; reflexivity).
  split; [exact Hload |]. split; [exact H0 |]. split; [exact H1 |].
  split; [exact H2 |].
  exact (proj2 (proj2 (generate_batch_is_sequence_of_renders
                         _ 42 10 3 "w.json" " | " weather Hload))
           eq_refl _ _ _ H0 H1 H2).
Defined.

(** ** Selection by coordinate hash *)

Lemma in_int32_ordinal (i : Z) : 0 <= i → i < 2 ^ 31 → in_int32 i = true.
Proof.
  intros Hlo Hhi. unfold in_int32.
  destruct (Z.leb_spec (- 2 ^ 31) i); [| lia].
  destruct (Z.ltb_spec i (2 ^ 31)); [reflexivity | lia].
Qed.

Lemma len_cons {A} (x : A) (l : list A) : len (x :: l) = 1 + len l.
Proof. unfold len. cbn [length]. lia. Qed.

Lemma len_nonneg {A} (l : list A) : 0 <= len l.
Proof. unfold len. lia. Qed.

Lemma trace_format_template (template : string)
    (ps : list (string * list string)) (components : gmap string string) :
  trace (format_template template ps components) = [].
Proof.
  unfold format_template, try_except_KeyError, lift.
  destruct (str_format template components) as [s | [] |]; reflexivity.
Qed.

(** The loop over the pools, entered at ordinal [i]: it creates one hasher
    per pool, never raises on pools that all have items, leaves the other
    keys of [components] alone, and stores under each key the item its
    coordinate hash selects. *)
Lemma select_components_run (seed idx : Z) (items : list (string * list string)) :
  ∀ (i : Z) (components : gmap string string),
    in_int32 idx = true →
    0 <= i →
    i + len items < 2 ^ 31 →
    Forall (λ kp, kp.2 ≠ []) items →
    ∃ components',
      select_components seed idx i items components =
        (replicate (length items) (Hasher (Z.land seed 0xFFFFFFFF)),
         Returned components') ∧
      (∀ key, key ∉ items.*1 → components' !! key = components !! key) ∧
      (NoDup items.*1 →
       ∀ (j : nat) key pool,
         items !! j = Some (key, pool) →
         ∃ item,
           pool !! Z.to_nat (coordinate_hash seed [idx; i + Z.of_nat j + 1]
                             mod len pool) = Some item ∧
           components' !! key = Some item).
Proof.
  induction items as [| [key pool] rest IH];
    intros i components Hidx Hi Hbound Hfull.
  - exists components. split; [reflexivity |]. split; [reflexivity |].
    intros _ j k p Hj. discriminate Hj.
  - rewrite len_cons in Hbound. pose proof (len_nonneg rest) as Hrest.
    apply Forall_cons in Hfull as [Hpool Hfull]. cbn [snd] in Hpool.
    destruct (getitem_mod pool (coordinate_hash seed [idx; i + 1]) Hpool)
      as (item & Hitem & Hget).
    destruct (IH (i + 1) (<[key := item]> components) Hidx ltac:(lia) ltac:(lia) Hfull)
      as (components' & Hrun & Hother & Hsel).
    exists components'. split; [| split].
    + cbn [select_components].
      rewrite prompt_hash_fits
        by (apply in_int32_pair; [exact Hidx | apply in_int32_ordinal; lia]).
      run_step.
      rewrite hash_to_index_pos by (apply len_pos; exact Hpool).
      run_step. rewrite Hget. run_step. rewrite Hrun. reflexivity.
    + intros k Hk. cbn [fmap list_fmap fst] in Hk.
      apply not_elem_of_cons in Hk as [Hne Hk].
      rewrite (Hother k Hk). now apply lookup_insert_ne.
    + intros Hnodup j k p Hj. cbn [fmap list_fmap fst] in Hnodup.
      apply NoDup_cons in Hnodup as [Hfresh Hnodup].
      destruct j as [| j]; cbn in Hj.
      * injection Hj as <- <-. exists item. split.
        -- replace (i + Z.of_nat 0 + 1) with (i + 1) by lia. exact Hitem.
        -- rewrite (Hother key Hfresh). apply lookup_insert_eq.
      * destruct (Hsel Hnodup j k p Hj) as (it & Hit & Hlook).
        exists it. split; [| exact Hlook].
        replace (i + Z.of_nat (S j) + 1) with (i + 1 + Z.of_nat j + 1) by lia.
        exact Hit.
Qed.

(** Selection on the signed range: on a validated profile, for a position
    index that packs as a signed 32-bit integer, [generate_prompt] formats
    the template at index [hash(seed, [idx, 0]) mod len(templates)] with,
    for the pool at position [j] of the iteration order (ordinal [j + 1]),
    the item at index [hash(seed, [idx, j + 1]) mod len(pool)]; it creates
    one hasher per choice. *)
Theorem generate_prompt_selects_by_hash
    (seed idx : Z) (profile : Profile) (ts : list string)
    (ps : list (string * list string)) :
  templates profile = Some ts →
  pools profile = Some ps →
  validated ts ps →
  NoDup ps.*1 →
  in_int32 idx = true →
  len ps < 2 ^ 31 →
  ∃ template components,
    ts !! Z.to_nat (coordinate_hash seed [idx; 0] mod len ts) = Some template ∧
    (∀ (j : nat) key pool,
       ps !! j = Some (key, pool) →
       ∃ item,
         pool !! Z.to_nat (coordinate_hash seed [idx; Z.of_nat j + 1]
                           mod len pool) = Some item ∧
         components !! key = Some item) ∧
    (∀ key, key ∉ ps.*1 → components !! key = None) ∧
    generate_prompt seed idx profile =
      (replicate (S (length ps)) (Hasher (Z.land seed 0xFFFFFFFF)),
       result (format_template template ps components)).
Proof.
  intros Hts Hps [Hnonempty Hfull] Hnodup Hidx Hbound.
  destruct (getitem_mod ts (coordinate_hash seed [idx; 0]) Hnonempty)
    as (template & Htemplate & Hget).
  destruct (select_components_run seed idx ps 0 ∅ Hidx ltac:(lia) ltac:(lia) Hfull)
    as (components & Hrun & Hother & Hsel).
  exists template, components. split; [exact Htemplate |]. split; [| split].
  - intros j key pool Hj.
    destruct (Hsel Hnodup j key pool Hj) as (item & Hitem & Hlook).
    exists item. split; [| exact Hlook].
    replace (Z.of_nat j + 1) with (0 + Z.of_nat j + 1) by lia. exact Hitem.
  - intros key Hkey. rewrite (Hother key Hkey). apply lookup_empty.
  - unfold generate_prompt. rewrite Hts, Hps. cbn [subscript].
    do 2 run_step.
    rewrite prompt_hash_fits by (apply in_int32_pair; [exact Hidx | reflexivity]).
    run_step.
    rewrite hash_to_index_pos by (apply len_pos; exact Hnonempty).
    run_step. rewrite Hget. run_step. rewrite Hrun. run_step.
    rewrite trace_format_template, app_nil_r. reflexivity.
Qed.

Lemma generate_prompt_selects_by_hash_witness :
  validated ["{sky} over {place}"; "{place}, {sky}"; "only {sky}"]
            [("sky", ["sun"; "rain"; "fog"; "snow"; "hail"]);
             ("place", ["hills"; "sea"])] ∧
  in_int32 7 = true ∧
  ∃ template components,
    ["{sky} over {place}"; "{place}, {sky}"; "only {sky}"]
      !! Z.to_nat (coordinate_hash 42 [7; 0] mod 3) = Some template ∧
    generate_prompt 42 7 weather =
      (replicate 3 (Hasher 42),
       result (format_template template
                 [("sky", ["sun"; "rain"; "fog"; "snow"; "hail"]);
                  ("place", ["hills"; "sea"])] components)).
Proof.
  assert (validated ["{sky} over {place}"; "{place}, {sky}"; "only {sky}"]
                    [("sky", ["sun"; "rain"; "fog"; "snow"; "hail"]);
                     ("place", ["hills"; "sea"])]) as Hvalid.
  { split; [discriminate |]. repeat constructor; discriminate. }
  assert (NoDup [("sky", ["sun"; "rain"; "fog"; "snow"; "hail"]);
                 ("place", ["hills"; "sea"])].*1) as Hnodup.
  { refine (bool_decide_unpack _ _). vm_compute. exact I. }
  split; [exact Hvalid |]. split; [reflexivity |].
  destruct (generate_prompt_selects_by_hash
              42 7 weather _ _ eq_refl eq_refl Hvalid Hnodup eq_refl eq_refl)
    as (template & components & Htemplate & _ & _ & Hrun).
  exists template, components. split; [exact Htemplate | exact Hrun].
Defined.

(** C5: on a validated profile, [generate_prompt] selects by coordinate
    hash only for a position index that packs as a signed 32-bit integer:
    there it formats the template at index
    [hash(seed, [idx, 0]) mod len(templates)] with, for the pool at position
    [j] of the iteration order (ordinal [j + 1]), the item at index
    [hash(seed, [idx, j + 1]) mod len(pool)], where [hash] is XXH32 seeded
    with [seed & 0xFFFFFFFF] over the little-endian 32-bit coordinates.
    For every other position index, those from 2^31 to [0xFFFFFFFF] that
    the node admits included, nothing is selected: the first hash raises
    [struct.error]. *)
Theorem generate_prompt_selects_or_raises
    (seed idx : Z) (profile : Profile) (ts : list string)
    (ps : list (string * list string)) :
  templates profile = Some ts →
  pools profile = Some ps →
  validated ts ps →
  NoDup ps.*1 →
  len ps < 2 ^ 31 →
  if in_int32 idx
  then
    ∃ template components,
      ts !! Z.to_nat (coordinate_hash seed [idx; 0] mod len ts) = Some template ∧
      (∀ (j : nat) key pool,
         ps !! j = Some (key, pool) →
         ∃ item,
           pool !! Z.to_nat (coordinate_hash seed [idx; Z.of_nat j + 1]
                             mod len pool) = Some item ∧
           components !! key = Some item) ∧
      (∀ key, key ∉ ps.*1 → components !! key = None) ∧
      generate_prompt seed idx profile =
        (replicate (S (length ps)) (Hasher (Z.land seed 0xFFFFFFFF)),
         result (format_template template ps components))
  else
    generate_prompt seed idx profile =
      ([Hasher (Z.land seed 0xFFFFFFFF)], Raised StructError).
Proof.
  intros Hts Hps Hvalid Hnodup Hbound.
  destruct (in_int32 idx) eqn:Hidx.
  - exact (generate_prompt_selects_by_hash seed idx profile ts ps
             Hts Hps Hvalid Hnodup Hidx Hbound).
  - unfold generate_prompt. rewrite Hts, Hps. cbn [subscript].
    do 2 run_step.
    rewrite prompt_hash_overflow by exact Hidx. reflexivity.
Qed.

Lemma generate_prompt_selects_or_raises_witness :
  validated ["{sky} over {place}"; "{place}, {sky}"; "only {sky}"]
            [("sky", ["sun"; "rain"; "fog"; "snow"; "hail"]);
             ("place", ["hills"; "sea"])] ∧
  in_int32 4294967295 = false ∧
  generate_prompt 42 4294967295 weather = ([Hasher 42], Raised StructError).
Proof.
  assert (validated ["{sky} over {place}"; "{place}, {sky}"; "only {sky}"]
                    [("sky", ["sun"; "rain"; "fog"; "snow"; "hail"]);
                     ("place", ["hills"; "sea"])]) as Hvalid.
  { split; [discriminate |]. repeat constructor; discriminate. }
  assert (NoDup [("sky", ["sun"; "rain"; "fog"; "snow"; "hail"]);
                 ("place", ["hills"; "sea"])].*1) as Hnodup.
  { refine (bool_decide_unpack _ _). vm_compute. exact I. }
  split; [exact Hvalid |]. split; [reflexivity |].
  exact (generate_prompt_selects_or_raises
           42 4294967295 weather _ _ eq_refl eq_refl Hvalid Hnodup eq_refl).
Defined.

(** ** Determinism *)





(** * Further properties of the hasher *)

Lemma lxor_below_pow2 (a b n : Z) :
  0 <= n → 0 <= a < 2 ^ n → 0 <= b < 2 ^ n → 0 <= Z.lxor a b < 2 ^ n.
Proof.
  intros Hn [Ha Han] [Hb Hbn].
  assert (0 <= Z.lxor a b) as Hnonneg by (apply Z.lxor_nonneg; tauto).
  split; [exact Hnonneg |].
  destruct (Z.eq_dec (Z.lxor a b) 0) as [-> | Hne].
  { apply Z.pow_pos_nonneg; lia. }
  assert (0 < n) as Hpos.
  { destruct (Z.eq_dec n 0) as [-> | ?]; [| lia].
    change (2 ^ 0) with 1 in *.
    assert (a = 0) as -> by lia. assert (b = 0) as -> by lia.
    now rewrite Z.lxor_0_r in Hne. }
  apply Z.log2_lt_pow2; [lia |].
  pose proof (Z.log2_lxor a b Ha Hb) as Hlog.
  assert (Z.log2 a < n) as Hla.
  { destruct (Z.eq_dec a 0) as [-> | ?].
    - rewrite Z.log2_nonpos by lia. lia.
    - apply Z.log2_lt_pow2; lia. }
  assert (Z.log2 b < n) as Hlb.
  { destruct (Z.eq_dec b 0) as [-> | ?].
    - rewrite Z.log2_nonpos by lia. lia.
    - apply Z.log2_lt_pow2; lia. }
  lia.
Qed.

Lemma shiftr_below (h k : Z) :
  0 <= k → 0 <= h < 2 ^ 32 → 0 <= Z.shiftr h k < 2 ^ 32.
Proof.
  intros Hk [Hlo Hhi]. rewrite Z.shiftr_div_pow2 by exact Hk.
  assert (0 < 2 ^ k) as Hpos by (apply Z.pow_pos_nonneg; lia).
  split; [apply Z.div_pos; lia |].
  apply Z.le_lt_trans with h; [| exact Hhi].
  apply Z.div_le_upper_bound; [exact Hpos |]. nia.
Qed.

Lemma avalanche_range (h : Z) : 0 <= XXH32.avalanche h < 2 ^ 32.
Proof.
  unfold XXH32.avalanche. cbv zeta.
  apply lxor_below_pow2; [lia | apply wrap_range |].
  apply shiftr_below; [lia | apply wrap_range].
Qed.

Local Transparent XXH32.digest.

Lemma digest_range (seed : Z) (input : bytes) :
  0 <= XXH32.digest seed input < 2 ^ 32.
Proof.
  unfold XXH32.digest. cbv zeta.
  destruct (16 <=? Z.of_nat (length input)).
  - destruct (XXH32.stripes _ _ _ _ input) as [[[[v1 v2] v3] v4] rest].
    apply avalanche_range.
  - apply avalanche_range.
Qed.

Local Opaque XXH32.digest.

Lemma struct_pack_i_rejects (coords : list Z) :
  forallb in_int32 coords = false → struct_pack_i coords = Raised StructError.
Proof.
  induction coords as [| x rest IH]; [discriminate |].
  cbn [forallb struct_pack_i]. destruct (in_int32 x); [| reflexivity].
  cbn [andb]. intros Hrest. now rewrite (IH Hrest).
Qed.

Lemma prompt_hash_closed_form (seed : Z) (coords : list Z) :
  prompt_hash seed coords =
    ([Hasher (seed mod 2 ^ 32)],
     if forallb in_int32 coords
     then Returned (XXH32.digest (seed mod 2 ^ 32)
                                 (concat (map (le_bytes 4) coords)))
     else Raised StructError).
Proof.
  pose proof (land_mask seed) as Hmask.
  unfold U32.mask, U32.wrap, U32.modulus in Hmask.
  destruct (forallb in_int32 coords) eqn:Hfit.
  - rewrite (prompt_hash_fits seed coords Hfit). unfold coordinate_hash.
    now rewrite Hmask.
  - unfold prompt_hash, new_hasher, lift.
    rewrite (struct_pack_i_rejects coords Hfit), Hmask. reflexivity.
Qed.

(** X1: [prompt_hash] creates exactly one hasher, seeded with the seed
    reduced modulo 2^32 (negative and oversized seeds wrap, they are not
    rejected); it returns the XXH32 digest of the packed coordinates when
    every coordinate fits a signed 32-bit integer and raises
    [struct.error] otherwise. *)
Theorem prompt_hash_outcome (seed : Z) (coords : list Z) :
  prompt_hash seed coords =
    ([Hasher (seed mod 2 ^ 32)],
     if forallb in_int32 coords
     then Returned (XXH32.digest (seed mod 2 ^ 32)
                                 (concat (map (le_bytes 4) coords)))
     else Raised StructError).
Proof.
  assert (Z.land seed 0xFFFFFFFF = seed mod 2 ^ 32) as Hwrap
    by exact (land_mask seed).
  destruct (forallb in_int32 coords) eqn:Hfit.
  - rewrite (prompt_hash_fits seed coords Hfit). unfold coordinate_hash.
    now rewrite Hwrap.
  - unfold prompt_hash, new_hasher, lift.
    rewrite (struct_pack_i_rejects coords Hfit), Hwrap. reflexivity.
Qed.

(** X2: whatever [prompt_hash] returns is an unsigned 32-bit integer. *)
Theorem prompt_hash_range (seed : Z) (coords : list Z) (h : Z) :
  result (prompt_hash seed coords) = Returned h → 0 <= h < 2 ^ 32.
Proof.
  rewrite prompt_hash_closed_form. cbn [result snd].
  destruct (forallb in_int32 coords); [| discriminate].
  intros [= <-]. apply digest_range.
Qed.

Lemma prompt_hash_range_witness :
  result (prompt_hash (-1) [-5; 2]) = Returned 3517808361 ∧
  0 <= 3517808361 < 2 ^ 32.
Proof.
  assert (result (prompt_hash (-1) [-5; 2]) = Returned 3517808361) as Hrun
    by (vm_compute; reflexivity).
  split; [exact Hrun |].
  exact (prompt_hash_range (-1) [-5; 2] 3517808361 Hrun).
Defined.

(** X3: seeds that differ by a multiple of 2^32 give the same hash. *)
Theorem prompt_hash_seed_wraps (seed k : Z) (coords : list Z) :
  prompt_hash (seed + k * 2 ^ 32) coords = prompt_hash seed coords.
Proof.
  rewrite !prompt_hash_closed_form. now rewrite Z.mod_add by lia.
Qed.

(** X4: indexing a non-empty pool with [hash_to_index] never goes out of
    bounds, for any integer hash, negative ones included: the composition
    [pool[hash_to_index(h, len(pool))]] returns a member of the pool. *)
Theorem pool_choice_in_bounds (h : Z) (pool : list string) :
  pool ≠ [] →
  ∃ k item,
    hash_to_index h (len pool) = mret k ∧
    0 <= k < len pool ∧
    getitem pool k = Returned item ∧
    item ∈ pool.
Proof.
  intros Hpool. pose proof (len_pos pool Hpool) as Hpos.
  destruct (getitem_mod pool h Hpool) as (item & Hlook & Hget).
  exists (h mod len pool), item. split; [now apply hash_to_index_pos |].
  split; [now apply Z.mod_pos_bound |]. split; [exact Hget |].
  apply list_elem_of_lookup. eauto.
Qed.

Lemma pool_choice_in_bounds_witness :
  ["sun"; "rain"; "fog"] ≠ [] ∧
  ∃ k item,
    hash_to_index (-7) (len ["sun"; "rain"; "fog"]) = mret k ∧
    0 <= k < len ["sun"; "rain"; "fog"] ∧
    getitem ["sun"; "rain"; "fog"] k = Returned item ∧
    item ∈ ["sun"; "rain"; "fog"].
Proof.
  assert (["sun"; "rain"; "fog"] ≠ ([] : list string)) as Hne by discriminate.
  split; [exact Hne |].
  exact (pool_choice_in_bounds (-7) ["sun"; "rain"; "fog"] Hne).
Defined.

(** ** Packing *)

Lemma le_decode_le_bytes (n : nat) (x : Z) :
  le_decode (le_bytes n x) = x mod 2 ^ (8 * Z.of_nat n).
Proof.
  revert x. induction n as [| n IH]; intros x.
  - cbn. now rewrite Z.mod_1_r.
  - cbn [le_bytes le_decode foldr]. fold (le_decode (le_bytes n (Z.shiftr x 8))).
    rewrite IH. change 255 with (Z.ones 8).
    rewrite Z.land_ones, Z.shiftr_div_pow2 by lia.
    replace (8 * Z.of_nat (S n)) with (8 + 8 * Z.of_nat n) by lia.
    rewrite Z.pow_add_r by lia.
    rewrite Z.rem_mul_r; [reflexivity | lia |].
    apply Z.pow_pos_nonneg; lia.
Qed.

Lemma to_signed32_wrap (x : Z) :
  in_int32 x = true → to_signed32 (x mod 2 ^ 32) = x.
Proof.
  unfold in_int32, to_signed32. intros [Hlo Hhi]%andb_prop.
  apply Z.leb_le in Hlo. apply Z.ltb_lt in Hhi.
  destruct (Z.lt_ge_cases x 0) as [Hneg | Hpos].
  - replace (x mod 2 ^ 32) with (x + 2 ^ 32)
      by (apply Z.mod_unique with (-1); lia).
    destruct (Z.ltb_spec (x + 2 ^ 32) (2 ^ 31)); lia.
  - rewrite Z.mod_small by lia.
    destruct (Z.ltb_spec x (2 ^ 31)); lia.
Qed.

Lemma struct_unpack_i_pack (coords : list Z) (bs : bytes) :
  struct_pack_i coords = Returned bs → struct_unpack_i bs = coords.
Proof.
  revert bs. induction coords as [| x rest IH]; intros bs Hpack.
  - injection Hpack as <-. reflexivity.
  - cbn [struct_pack_i] in Hpack.
    destruct (in_int32 x) eqn:Hx; [| discriminate].
    destruct (struct_pack_i rest) as [bs' | e |]; try discriminate.
    injection Hpack as <-.
    change (le_bytes 4 x ++ bs')
      with (Z.land x 255 :: Z.land (Z.shiftr x 8) 255
            :: Z.land (Z.shiftr (Z.shiftr x 8) 8) 255
            :: Z.land (Z.shiftr (Z.shiftr (Z.shiftr x 8) 8) 8) 255 :: bs').
    cbn [struct_unpack_i].
    change [Z.land x 255; Z.land (Z.shiftr x 8) 255;
            Z.land (Z.shiftr (Z.shiftr x 8) 8) 255;
            Z.land (Z.shiftr (Z.shiftr (Z.shiftr x 8) 8) 8) 255]
      with (le_bytes 4 x).
    rewrite le_decode_le_bytes. change (8 * Z.of_nat 4) with 32.
    rewrite (to_signed32_wrap x Hx). f_equal. now apply IH.
Qed.

Lemma struct_pack_i_length (coords : list Z) (bs : bytes) :
  struct_pack_i coords = Returned bs → length bs = (4 * length coords)%nat.
Proof.
  revert bs. induction coords as [| x rest IH]; intros bs Hpack.
  - injection Hpack as <-. reflexivity.
  - cbn [struct_pack_i] in Hpack.
    destruct (in_int32 x); [| discriminate].
    destruct (struct_pack_i rest) as [bs' | e |]; try discriminate.
    injection Hpack as <-. cbn [le_bytes app length].
    rewrite (IH bs' eq_refl). lia.
Qed.

(** X5: the packing that feeds the hasher loses nothing: two coordinate
    tuples that pack to the same bytes are the same tuple, and a tuple of
    [n] coordinates packs to [4 * n] bytes.  Different positions or
    ordinals therefore never hash the same input. *)
Theorem struct_pack_i_injective (coords coords' : list Z) (bs : bytes) :
  struct_pack_i coords = Returned bs →
  struct_pack_i coords' = Returned bs →
  coords = coords' ∧ length bs = (4 * length coords)%nat.
Proof.
  intros Hpack Hpack'. split.
  - rewrite <- (struct_unpack_i_pack coords bs Hpack).
    apply (struct_unpack_i_pack coords' bs Hpack').
  - now apply struct_pack_i_length.
Qed.

Lemma struct_pack_i_injective_witness :
  struct_pack_i [7; -1] = Returned [7; 0; 0; 0; 255; 255; 255; 255] ∧
  length [7; 0; 0; 0; 255; 255; 255; 255] = (4 * length [7; -1]%Z)%nat.
Proof.
  assert (struct_pack_i [7; -1] = Returned [7; 0; 0; 0; 255; 255; 255; 255])
    as Hpack by (vm_compute; reflexivity).
  split; [exact Hpack |].
  exact (proj2 (struct_pack_i_injective [7; -1] [7; -1] _ Hpack Hpack)).
Defined.

(** ** Seed mixer *)

Lemma mix_seeds_uint32 (s1 s2 s3 s4 : Z) :
  uint32 s1 = true → uint32 s2 = true → uint32 s3 = true → uint32 s4 = true →
  Z2J_SeedMixer.mix_seeds s1 s2 s3 s4 =
    ([Hasher 0],
     Returned (XXH32.digest 0 (le_bytes 4 s1 ++ le_bytes 4 s2 ++
                               le_bytes 4 s3 ++ le_bytes 4 s4))).
Proof.
  intros H1 H2 H3 H4. unfold Z2J_SeedMixer.mix_seeds, new_hasher, lift.
  rewrite !to_bytes_4_little_uint32, H1, H2, H3, H4.
  cbn. unfold XXH32.intdigest, XXH32.update, XXH32.xxh32. cbn. reflexivity.
Qed.

(** X6: on four unsigned 32-bit seeds [mix_seeds] returns an unsigned
    32-bit integer, so a mixed seed is itself accepted wherever a seed is,
    by [mix_seeds] included. *)
Theorem mix_seeds_range (s1 s2 s3 s4 : Z) :
  uint32 s1 && uint32 s2 && uint32 s3 && uint32 s4 = true →
  ∃ mixed,
    Z2J_SeedMixer.mix_seeds s1 s2 s3 s4 = ([Hasher 0], Returned mixed) ∧
    uint32 mixed = true ∧
    ∃ again,
      Z2J_SeedMixer.mix_seeds mixed s2 s3 s4 = ([Hasher 0], Returned again).
Proof.
  intros Hseeds.
  apply andb_prop in Hseeds as [[[H1 H2]%andb_prop H3]%andb_prop H4].
  eexists. split; [exact (mix_seeds_uint32 s1 s2 s3 s4 H1 H2 H3 H4) |].
  assert (uint32 (XXH32.digest 0 (le_bytes 4 s1 ++ le_bytes 4 s2 ++
                                  le_bytes 4 s3 ++ le_bytes 4 s4)) = true)
    as Hmixed.
  { pose proof (digest_range 0 (le_bytes 4 s1 ++ le_bytes 4 s2 ++
                                le_bytes 4 s3 ++ le_bytes 4 s4)) as [Hlo Hhi].
    unfold uint32. apply andb_true_intro.
    split; [now apply Z.leb_le | now apply Z.ltb_lt]. }
  split; [exact Hmixed |].
  eexists. exact (mix_seeds_uint32 _ s2 s3 s4 Hmixed H2 H3 H4).
Qed.

Lemma mix_seeds_range_witness :
  uint32 1 && uint32 2 && uint32 0 && uint32 0 = true ∧
  ∃ mixed,
    Z2J_SeedMixer.mix_seeds 1 2 0 0 = ([Hasher 0], Returned mixed) ∧
    uint32 mixed = true.
Proof.
  split; [reflexivity |].
  destruct (mix_seeds_range 1 2 0 0 eq_refl) as (mixed & Hrun & Hrange & _).
  exists mixed. split; [exact Hrun | exact Hrange].
Defined.

(** ** Combinatorics and division by zero *)

Lemma product_lens_nonneg (pools : list (list string)) :
  0 <= product (map len pools).
Proof.
  induction pools as [| pool rest IH]; unfold product in *; cbn; [lia |].
  pose proof (len_nonneg pool). nia.
Qed.

Lemma product_lens_pos (pools : list (list string)) :
  0 < product (map len pools) ↔ Forall (λ pool, pool ≠ []) pools.
Proof.
  induction pools as [| pool rest IH].
  - unfold product. cbn. split; [constructor | lia].
  - unfold product in *. cbn [map foldr].
    pose proof (len_nonneg pool) as Hpool.
    pose proof (product_lens_nonneg rest) as Hrest. unfold product in Hrest.
    rewrite Forall_cons. split.
    + intros Hpos. split.
      * intros ->. change (len []) with 0 in Hpos. lia.
      * apply IH. nia.
    + intros [Hne Hall]. apply IH in Hall. pose proof (len_pos pool Hne). nia.
Qed.

Lemma combinations_pos (ts : list string) (ps : list (string * list string))
    n d v :
  0 < calculate_combinations (mk_profile (Some ts) (Some ps) n d v) ↔
  validated ts ps.
Proof.
  unfold calculate_combinations, validated.
  change (default [] (templates (mk_profile (Some ts) (Some ps) n d v))) with ts.
  change (default [] (pools (mk_profile (Some ts) (Some ps) n d v))) with ps.
  rewrite fold_left_product.
  pose proof (len_nonneg ts) as Hts.
  pose proof (product_lens_nonneg (map snd ps)) as Hprod.
  pose proof (product_lens_pos (map snd ps)) as Hiff.
  rewrite Forall_fmap in Hiff. split.
  - intros Hpos. split.
    + intros ->. change (len []) with 0 in Hpos. lia.
    + apply Hiff. nia.
  - intros [Hne Hall]. apply Hiff in Hall. pose proof (len_pos ts Hne). nia.
Qed.

(** X7: for a profile with both keys, the combination count is never
    negative, and it is positive exactly when there is at least one
    template and no pool is empty. *)
Theorem combinations_positive_iff_validated
    (ts : list string) (ps : list (string * list string)) n d v :
  0 <= calculate_combinations (mk_profile (Some ts) (Some ps) n d v) ∧
  (0 < calculate_combinations (mk_profile (Some ts) (Some ps) n d v) ↔
   validated ts ps).
Proof.
  split; [| apply combinations_pos].
  unfold calculate_combinations.
  change (default [] (templates (mk_profile (Some ts) (Some ps) n d v))) with ts.
  change (default [] (pools (mk_profile (Some ts) (Some ps) n d v))) with ps.
  rewrite fold_left_product.
  pose proof (len_nonneg ts). pose proof (product_lens_nonneg (map snd ps)).
  nia.
Qed.

(** ** Exceptions of the renderer *)

Lemma bind_raises {A B} (P : exn → Prop) (m : M A) (f : A → M B) :
  (∀ e, result m = Raised e → P e) →
  (∀ a e, result (f a) = Raised e → P e) →
  ∀ e, result (m ≫= f) = Raised e → P e.
Proof.
  intros Hm Hf e. destruct m as [tr [a | e' |]].
  - rewrite bind_returned. cbn [result snd]. apply Hf.
  - cbn. intros [= <-]. now apply Hm.
  - cbn. discriminate.
Qed.

Lemma prepend_raises (pre : string) (o : outcome string) (e : exn) :
  prepend pre o = Raised e → o = Raised e.
Proof. destruct o; cbn; congruence. Qed.

Lemma get_integer_raises (s : string) :
  ∀ acc e, get_integer acc s = Raised e → format_exn e.
Proof.
  induction s as [| c s IH]; intros acc e; cbn [get_integer]; [discriminate |].
  destruct (digit_value c) as [d |];
    [| destruct (128 <=? Z.of_nat (nat_of_ascii c)); discriminate].
  destruct ((PY_SSIZE_T_MAX - d) / 10 <? acc); [intros [= <-]; exact I | apply IH].
Qed.

Lemma get_field_raises (name : string) (kwargs : gmap string string) (e : exn) :
  get_field name kwargs = Raised e → format_exn e.
Proof.
  unfold get_field. destruct (split_first name) as [first rest].
  destruct first as [| c first]; [intros [= <-]; exact I |].
  destruct (get_integer 0 (String c first)) as [[i |] | e' |] eqn:Hint.
  - intros [= <-]. exact I.
  - destruct (kwargs !! String c first) as [value |].
    + destruct rest; discriminate.
    + intros [= <-]. exact I.
  - intros [= <-]. exact (get_integer_raises _ _ _ Hint).
  - discriminate.
Qed.

Lemma format_scan_raises (kwargs : gmap string string) (s : string) :
  ∀ st e, format_scan kwargs st s = Raised e → format_exn e.
Proof.
  induction s as [| c s IH]; intros st e.
  - destruct st; cbn; try discriminate; intros [= <-]; exact I.
  - assert (∀ (name : string) (bracketed : bool),
              (if bracketed
               then format_scan kwargs
                      (InField (name +:+ String c EmptyString)
                               (negb (eqb_char c "]"))) s
               else if eqb_char c "{"
                    then Raised (ValueError "unexpected '{' in field name")
                    else if eqb_char c "["
                         then format_scan kwargs (InField (name +:+ "[") true) s
                         else if eqb_char c "}"
                              then match get_field name kwargs with
                                   | Returned value =>
                                       prepend value (format_scan kwargs InText s)
                                   | other => other
                                   end
                              else if eqb_char c ":" || eqb_char c "!"
                                   then Unmodelled
                                   else format_scan kwargs
                                          (InField (name +:+ String c EmptyString)
                                                   false) s) = Raised e →
              format_exn e) as Hfield.
    { intros name [|]; [apply IH |].
      destruct (eqb_char c "{"); [intros [= <-]; exact I |].
      destruct (eqb_char c "["); [apply IH |].
      destruct (eqb_char c "}").
      - destruct (get_field name kwargs) as [value | e' |] eqn:Hget.
        + intros H%prepend_raises. exact (IH _ _ H).
        + intros [= <-]. exact (get_field_raises _ _ _ Hget).
        + discriminate.
      - destruct (eqb_char c ":" || eqb_char c "!"); [discriminate | apply IH]. }
    destruct st as [| | | name bracketed]; cbn [format_scan].
    + destruct (eqb_char c "{"); [apply IH |].
      destruct (eqb_char c "}"); [apply IH |].
      intros H%prepend_raises. exact (IH _ _ H).
    + destruct (eqb_char c "{") eqn:Hopen.
      * intros H%prepend_raises. exact (IH _ _ H).
      * pose proof (Hfield EmptyString false) as Hf.
        cbv beta iota in Hf. exact Hf.
    + destruct (eqb_char c "}").
      * intros H%prepend_raises. exact (IH _ _ H).
      * intros [= <-]. exact I.
    + apply Hfield.
Qed.

Lemma format_template_raises (template : string)
    (ps : list (string * list string)) (components : gmap string string)
    (e : exn) :
  result (format_template template ps components) = Raised e →
  (∃ msg, e = ValueError msg) ∨ e = IndexError.
Proof.
  unfold format_template, try_except_KeyError, lift, str_format.
  destruct (format_scan components InText template) as [s | e' |] eqn:Hscan.
  - discriminate.
  - pose proof (format_scan_raises _ _ _ _ Hscan) as Hexn.
    destruct e'; cbn in Hexn; try contradiction; cbn.
    + discriminate.
    + intros [= <-]. eauto.
    + intros [= <-]. eauto.
  - discriminate.
Qed.

Lemma prompt_hash_raises (seed : Z) (coords : list Z) (e : exn) :
  result (prompt_hash seed coords) = Raised e → e = StructError.
Proof.
  rewrite prompt_hash_closed_form. cbn [result snd].
  destruct (forallb in_int32 coords); congruence.
Qed.

Lemma hash_to_index_raises (h n : Z) (e : exn) :
  result (hash_to_index h n) = Raised e → e = ZeroDivisionError.
Proof. unfold hash_to_index. destruct (n =? 0); cbn; congruence. Qed.

Lemma getitem_raises {A} (l : list A) (k : Z) (e : exn) :
  getitem l k = Raised e → e = IndexError.
Proof.
  unfold getitem. destruct (_ && _); [| congruence].
  destruct (l !! _); congruence.
Qed.

Lemma select_components_raises (seed idx : Z)
    (items : list (string * list string)) :
  ∀ i components e,
    result (select_components seed idx i items components) = Raised e →
    render_exn e.
Proof.
  induction items as [| [key pool] rest IH]; intros i components e.
  - cbn. discriminate.
  - cbn [select_components]. apply bind_raises.
    { intros e' ->%prompt_hash_raises. exact I. }
    intros h. apply bind_raises.
    { intros e' ->%hash_to_index_raises. exact I. }
    intros k. apply bind_raises.
    { unfold lift. cbn [result snd]. intros e' ->%getitem_raises. exact I. }
    intros item. apply IH.
Qed.

(** Within the modelled part of [str.format], a render of a profile with
    both keys can only end with one of the exceptions of [render_exn]. *)
Lemma generate_prompt_raises
    (seed idx : Z) (profile : Profile) (ts : list string)
    (ps : list (string * list string)) (e : exn) :
  templates profile = Some ts →
  pools profile = Some ps →
  result (generate_prompt seed idx profile) = Raised e →
  render_exn e.
Proof.
  intros Hts Hps. unfold generate_prompt. rewrite Hts, Hps. cbn [subscript].
  rewrite !bind_mret_l. revert e.
  apply bind_raises.
  { intros e ->%prompt_hash_raises. exact I. }
  intros h. apply bind_raises.
  { intros e ->%hash_to_index_raises. exact I. }
  intros t. apply bind_raises.
  { unfold lift. cbn [result snd]. intros e ->%getitem_raises. exact I. }
  intros template. apply bind_raises.
  { apply select_components_raises. }
  intros components e [[msg ->] | ->]%format_template_raises; exact I.
Qed.

(** X8: on a profile that has both keys, [generate_prompt] never ends with
    a [KeyError]: when [template.format] raises one (a slot without a
    pool), the [except] branch takes over and the fallback text is
    returned instead. *)
Theorem generate_prompt_never_KeyError
    (seed idx : Z) (profile : Profile) (ts : list string)
    (ps : list (string * list string)) :
  templates profile = Some ts →
  pools profile = Some ps →
  (∀ key, result (generate_prompt seed idx profile) ≠ Raised (KeyError key)) ∧
  (∀ template components key,
     str_format template components = Raised (KeyError key) →
     format_template template ps components =
       ([], Returned (fallback template ps.*1 components))).
Proof.
  intros Hts Hps. split.
  - intros key Hkey.
    exact (generate_prompt_raises seed idx profile ts ps _ Hts Hps Hkey).
  - intros template components key Hformat.
    unfold format_template, try_except_KeyError, lift. now rewrite Hformat.
Qed.

Lemma generate_prompt_never_KeyError_witness :
  templates unknown_slot = Some ["A {known} B {unknown} C"] ∧
  pools unknown_slot = Some [("known", ["x"])] ∧
  str_format "A {known} B {unknown} C" {["known" := "x"]} =
    Raised (KeyError "unknown") ∧
  result (generate_prompt 3 4 unknown_slot) ≠ Raised (KeyError "unknown").
Proof.
  split; [reflexivity |]. split; [reflexivity |].
  split; [vm_compute; reflexivity |].
  exact (proj1 (generate_prompt_never_KeyError
                  3 4 unknown_slot _ _ eq_refl eq_refl) "unknown").
Defined.

Lemma generate_prompt_validated
    (seed idx : Z) (profile : Profile) (ts : list string)
    (ps : list (string * list string)) :
  templates profile = Some ts →
  pools profile = Some ps →
  validated ts ps →
  in_int32 idx = true →
  len ps < 2 ^ 31 →
  ∃ template components,
    template ∈ ts ∧
    generate_prompt seed idx profile =
      (replicate (S (length ps)) (Hasher (Z.land seed 0xFFFFFFFF)),
       result (format_template template ps components)).
Proof.
  intros Hts Hps [Hnonempty Hfull] Hidx Hbound.
  destruct (getitem_mod ts (coordinate_hash seed [idx; 0]) Hnonempty)
    as (template & Htemplate & Hget).
  destruct (select_components_run seed idx ps 0 ∅ Hidx ltac:(lia) ltac:(lia) Hfull)
    as (components & Hrun & _ & _).
  exists template, components. split.
  { apply list_elem_of_lookup. eauto. }
  unfold generate_prompt. rewrite Hts, Hps. cbn [subscript].
  do 2 run_step.
  rewrite prompt_hash_fits by (apply in_int32_pair; [exact Hidx | reflexivity]).
  run_step.
  rewrite hash_to_index_pos by (apply len_pos; exact Hnonempty).
  run_step. rewrite Hget. run_step. rewrite Hrun. run_step.
  rewrite trace_format_template, app_nil_r. reflexivity.
Qed.

Lemma select_components_hits_empty (seed idx : Z)
    (items : list (string * list string)) :
  ∀ i components,
    in_int32 idx = true →
    0 <= i →
    i + len items < 2 ^ 31 →
    ¬ Forall (λ kp, kp.2 ≠ []) items →
    result (select_components seed idx i items components) =
      Raised ZeroDivisionError.
Proof.
  induction items as [| [key pool] rest IH];
    intros i components Hidx Hi Hbound Hsome.
  - exfalso. apply Hsome. constructor.
  - rewrite len_cons in Hbound. pose proof (len_nonneg rest) as Hrest.
    cbn [select_components].
    rewrite prompt_hash_fits
      by (apply in_int32_pair; [exact Hidx | apply in_int32_ordinal; lia]).
    run_step.
    destruct pool as [| item0 pool'].
    + reflexivity.
    + assert (item0 :: pool' ≠ []) as Hpool by discriminate.
      destruct (getitem_mod (item0 :: pool')
                            (coordinate_hash seed [idx; i + 1]) Hpool)
        as (item & _ & Hget).
      rewrite hash_to_index_pos by (apply len_pos; exact Hpool).
      run_step. rewrite Hget. run_step.
      apply IH; [exact Hidx | lia | lia |].
      intros Hall. apply Hsome. constructor; [exact Hpool | exact Hall].
Qed.

(** X9: for a profile with both keys, a position index in the signed
    32-bit range and fewer than 2^31 pools, [generate_prompt] ends with
    [ZeroDivisionError] exactly when [calculate_combinations] is 0, that
    is when there is no template or some pool is empty. *)
Theorem zero_division_iff_no_combinations
    (seed idx : Z) (ts : list string) (ps : list (string * list string)) n d v :
  in_int32 idx = true →
  len ps < 2 ^ 31 →
  result (generate_prompt seed idx (mk_profile (Some ts) (Some ps) n d v)) =
    Raised ZeroDivisionError ↔
  calculate_combinations (mk_profile (Some ts) (Some ps) n d v) = 0.
Proof.
  intros Hidx Hbound.
  pose proof (combinations_pos ts ps n d v) as Hpos.
  assert (0 <= calculate_combinations (mk_profile (Some ts) (Some ps) n d v))
    as Hnonneg.
  { unfold calculate_combinations.
    change (default [] (templates (mk_profile (Some ts) (Some ps) n d v))) with ts.
    change (default [] (pools (mk_profile (Some ts) (Some ps) n d v))) with ps.
    rewrite fold_left_product.
    pose proof (len_nonneg ts). pose proof (product_lens_nonneg (map snd ps)).
    nia. }
  split.
  - intros Hzero.
    destruct (Z.eq_dec (calculate_combinations
                          (mk_profile (Some ts) (Some ps) n d v)) 0)
      as [Heq | Hne]; [exact Heq | exfalso].
    assert (validated ts ps) as Hvalid by (apply Hpos; lia).
    destruct (generate_prompt_validated
                seed idx (mk_profile (Some ts) (Some ps) n d v) ts ps
                eq_refl eq_refl Hvalid Hidx Hbound)
      as (template & components & _ & Hrun).
    rewrite Hrun in Hzero. cbn [result snd] in Hzero.
    apply format_template_raises in Hzero as [[msg Hmsg] | Hindex];
      discriminate.
  - intros Hzero.
    assert (¬ validated ts ps) as Hinvalid by (intros Hv%Hpos; lia).
    unfold generate_prompt. cbn [templates pools subscript].
    do 2 run_step.
    rewrite prompt_hash_fits by (apply in_int32_pair; [exact Hidx | reflexivity]).
    run_step.
    destruct ts as [| t0 ts'].
    + reflexivity.
    + assert (t0 :: ts' ≠ []) as Hts by discriminate.
      destruct (getitem_mod (t0 :: ts') (coordinate_hash seed [idx; 0]) Hts)
        as (template & _ & Hget).
      rewrite hash_to_index_pos by (apply len_pos; exact Hts).
      run_step. rewrite Hget. run_step.
      assert (result (select_components seed idx 0 ps ∅) = Raised ZeroDivisionError)
        as Hsel.
      { apply select_components_hits_empty; [exact Hidx | lia | lia |].
        intros Hall. apply Hinvalid. split; [exact Hts | exact Hall]. }
      destruct (select_components seed idx 0 ps ∅) as [tr [c | e |]];
        cbn in Hsel; try discriminate Hsel.
      injection Hsel as ->. reflexivity.
Qed.

Lemma zero_division_iff_no_combinations_witness :
  in_int32 5 = true ∧
  len [("a", ["x"]); ("b", [])] < 2 ^ 31 ∧
  (result (generate_prompt 3 5
             (mk_profile (Some ["{a}"]) (Some [("a", ["x"]); ("b", [])])
                         None None None)) = Raised ZeroDivisionError ↔
   calculate_combinations
     (mk_profile (Some ["{a}"]) (Some [("a", ["x"]); ("b", [])])
                 None None None) = 0).
Proof.
  split; [reflexivity |]. split; [reflexivity |].
  exact (zero_division_iff_no_combinations
           3 5 ["{a}"] [("a", ["x"]); ("b", [])] None None None
           eq_refl eq_refl).
Defined.

(** ** Templates without slots *)

Lemma format_scan_brace_free (kwargs : gmap string string) (s : string) :
  brace_free s = true → format_scan kwargs InText s = Returned s.
Proof.
  induction s as [| c s IH]; [reflexivity |].
  cbn [brace_free format_scan].
  intros [[Hopen Hclose]%andb_prop Hrest]%andb_prop.
  apply negb_true_iff in Hopen, Hclose. rewrite Hopen, Hclose.
  now rewrite (IH Hrest).
Qed.

(** X10: on a validated profile whose templates contain no braces, for a
    position index in the signed 32-bit range, [generate_prompt] returns
    one of the templates as it is written: the pool items are chosen (one
    hasher each) but not used. *)
Theorem brace_free_templates_verbatim
    (seed idx : Z) (profile : Profile) (ts : list string)
    (ps : list (string * list string)) :
  templates profile = Some ts →
  pools profile = Some ps →
  validated ts ps →
  forallb brace_free ts = true →
  in_int32 idx = true →
  len ps < 2 ^ 31 →
  ∃ template,
    template ∈ ts ∧
    generate_prompt seed idx profile =
      (replicate (S (length ps)) (Hasher (Z.land seed 0xFFFFFFFF)),
       Returned template).
Proof.
  intros Hts Hps Hvalid Hfree Hidx Hbound.
  destruct (generate_prompt_validated seed idx profile ts ps
              Hts Hps Hvalid Hidx Hbound)
    as (template & components & Hin & Hrun).
  exists template. split; [exact Hin |]. rewrite Hrun. f_equal.
  assert (brace_free template = true) as Htemplate.
  { rewrite forallb_forall in Hfree. apply Hfree.
    now apply list_elem_of_In. }
  unfold format_template, try_except_KeyError, lift, str_format.
  now rewrite (format_scan_brace_free components template Htemplate).
Qed.

Lemma brace_free_templates_verbatim_witness :
  validated ["misty dawn"; "clear noon"] [("unused", ["x"; "y"])] ∧
  forallb brace_free ["misty dawn"; "clear noon"] = true ∧
  in_int32 11 = true ∧
  ∃ template,
    template ∈ ["misty dawn"; "clear noon"] ∧
    generate_prompt 2 11
      (mk_profile (Some ["misty dawn"; "clear noon"])
                  (Some [("unused", ["x"; "y"])]) None None None) =
      (replicate 2 (Hasher 2), Returned template).
Proof.
  assert (validated ["misty dawn"; "clear noon"] [("unused", ["x"; "y"])])
    as Hvalid.
  { split; [discriminate |]. repeat constructor; discriminate. }
  split; [exact Hvalid |]. split; [reflexivity |]. split; [reflexivity |].
  exact (brace_free_templates_verbatim 2 11
           (mk_profile (Some ["misty dawn"; "clear noon"])
                       (Some [("unused", ["x"; "y"])]) None None None)
           _ _ eq_refl eq_refl Hvalid eq_refl eq_refl eq_refl).
Defined.

(** * Further properties of the nodes *)

Lemma load_profile_raises (profiles_dir : gmap string file)
    (profile_name : string) (e : exn) :
  load_profile profiles_dir profile_name = Raised e →
  ∃ msg, Z2J_BatchGenerator.exn_str e = Some msg ∧
         (e = FileNotFoundError msg ∨ e = ValueError msg ∨ e = JSONDecodeError msg).
Proof.
  unfold load_profile.
  destruct (profiles_dir !! profile_name) as [[msg | profile] |].
  - intros [= <-]. exists msg. cbn. eauto.
  - destruct (templates profile); [destruct (pools profile) |];
      try discriminate; intros [= <-]; eexists; cbn; eauto.
  - intros [= <-]. eexists. cbn. eauto.
Qed.

Lemma load_profile_never_unmodelled (profiles_dir : gmap string file)
    (profile_name : string) :
  load_profile profiles_dir profile_name ≠ Unmodelled.
Proof.
  unfold load_profile.
  destruct (profiles_dir !! profile_name) as [[msg | profile] |];
    try discriminate.
  destruct (templates profile); [destruct (pools profile) |]; discriminate.
Qed.

Lemma generate_with_profile
    (DEFAULT_PROFILE : string) (profiles_dir : gmap string file)
    (cache : gmap string Profile) (seed prompt_index : Z)
    (profile : option string) (prefix suffix : string) (data : Profile) :
  cache !! default DEFAULT_PROFILE profile = Some data ∨
  (cache !! default DEFAULT_PROFILE profile = None ∧
   load_profile profiles_dir (default DEFAULT_PROFILE profile) = Returned data) →
  Zero2JSONBaseNode.generate DEFAULT_PROFILE profiles_dir cache
    seed prompt_index profile prefix suffix =
  (<[default DEFAULT_PROFILE profile := data]> cache,
   generate_prompt seed prompt_index data
   ≫= λ prompt, mret (prefix +:+ prompt +:+ suffix)).
Proof.
  intros Hsource. unfold Zero2JSONBaseNode.generate. cbv zeta.
  assert (∀ m : M string,
            (m ≫= λ prompt,
                 mret (if Zero2JSONBaseNode.truthy prefix
                          || Zero2JSONBaseNode.truthy suffix
                       then prefix +:+ prompt +:+ suffix else prompt)) =
            (m ≫= λ prompt, mret (prefix +:+ prompt +:+ suffix))) as Hdecorate.
  { intros m. apply bind_ext. intros prompt. now rewrite decorate. }
  destruct Hsource as [Hhit | [Hmiss Hload]].
  - rewrite Hhit. cbv beta iota. rewrite Hhit. cbn [subscript].
    rewrite insert_id by exact Hhit. f_equal.
    rewrite bind_mret_l. apply Hdecorate.
  - rewrite Hmiss, Hload. cbv beta iota. rewrite lookup_insert_eq.
    cbn [subscript]. f_equal. rewrite bind_mret_l. apply Hdecorate.
Qed.

(** X11: when the profile is not cached, and either nothing exists under
    its plain file name, or its file is not JSON, or its file is a JSON
    object without the key [templates] or without the key [pools],
    [generate] does not raise: it returns the bracketed error text with the
    message of that failure, creates no hasher and leaves the cache as it
    was, so a later call tries to load again. *)
Theorem generate_reports_load_failure
    (DEFAULT_PROFILE : string) (profiles_dir : gmap string file)
    (cache : gmap string Profile) (seed prompt_index : Z)
    (profile : option string) (prefix suffix msg : string) :
  cache !! default DEFAULT_PROFILE profile = None →
  (profiles_dir !! default DEFAULT_PROFILE profile = None ∧
   entry_name (default DEFAULT_PROFILE profile) = true ∧
   msg = "Profile not found: " +:+ default DEFAULT_PROFILE profile) ∨
  profiles_dir !! default DEFAULT_PROFILE profile = Some (Malformed msg) ∨
  (∃ p, profiles_dir !! default DEFAULT_PROFILE profile = Some (Document p) ∧
        templates p = None ∧
        msg = "Profile " +:+ default DEFAULT_PROFILE profile
              +:+ " missing 'templates' field") ∨
  (∃ p, profiles_dir !! default DEFAULT_PROFILE profile = Some (Document p) ∧
        is_Some (templates p) ∧ pools p = None ∧
        msg = "Profile " +:+ default DEFAULT_PROFILE profile
              +:+ " missing 'pools' field") →
  Zero2JSONBaseNode.generate DEFAULT_PROFILE profiles_dir cache
    seed prompt_index profile prefix suffix =
  (cache,
   ([], Returned ("[Error loading profile '"
                  +:+ default DEFAULT_PROFILE profile +:+ "': "
                  +:+ msg +:+ "]"))).
Proof.
  intros Hmiss Hcause.
  unfold Zero2JSONBaseNode.generate, load_profile. cbv zeta. rewrite Hmiss.
  destruct Hcause
    as [(Hnone & _ & ->) | [Hbad | [(p & Hdoc & Hts & ->)
                                   | (p & Hdoc & [ts Hts] & Hps & ->)]]].
  - rewrite Hnone. reflexivity.
  - rewrite Hbad. reflexivity.
  - rewrite Hdoc, Hts. reflexivity.
  - rewrite Hdoc, Hts, Hps. reflexivity.
Qed.

Lemma generate_reports_load_failure_witness :
  (∅ : gmap string Profile) !! default "default.json" None = None ∧
  (∅ : gmap string file) !! default "default.json" None = None ∧
  entry_name (default "default.json" None) = true ∧
  Zero2JSONBaseNode.generate "default.json" ∅ ∅ 1 2 None "pre" "post" =
  (∅, ([], Returned ("[Error loading profile '"
                     +:+ default "default.json" None +:+ "': "
                     +:+ ("Profile not found: " +:+ default "default.json" None)
                     +:+ "]"))).
Proof.
  assert ((∅ : gmap string Profile) !! default "default.json" None = None)
    as Hmiss by reflexivity.
  assert ((∅ : gmap string file) !! default "default.json" None = None)
    as Hnone by reflexivity.
  assert (entry_name (default "default.json" None) = true) as Hname
    by reflexivity.
  split; [exact Hmiss |]. split; [exact Hnone |]. split; [exact Hname |].
  exact (generate_reports_load_failure
           "default.json" ∅ ∅ 1 2 None "pre" "post" _ Hmiss
           (or_introl (conj Hnone (conj Hname eq_refl)))).
Defined.

(** X12: [generate] never removes or changes a cache entry: the cache it
    leaves behind extends the one it found, whatever the inputs. *)
Theorem generate_cache_grows
    (DEFAULT_PROFILE : string) (profiles_dir : gmap string file)
    (cache : gmap string Profile) (seed prompt_index : Z)
    (profile : option string) (prefix suffix : string) :
  cache ⊆ fst (Zero2JSONBaseNode.generate DEFAULT_PROFILE profiles_dir cache
                 seed prompt_index profile prefix suffix).
Proof.
  unfold Zero2JSONBaseNode.generate. cbv zeta.
  destruct (cache !! default DEFAULT_PROFILE profile) as [data |] eqn:Hcache.
  - reflexivity.
  - destruct (load_profile profiles_dir (default DEFAULT_PROFILE profile))
      as [data | [] |]; cbn [fst]; try reflexivity.
    now apply insert_subseteq.
Qed.

(** X13: a cached profile is never reloaded: when the cache has an entry
    for the profile name, [generate] renders that entry and gives the same
    result whatever the profiles directory holds (a changed, broken or
    deleted file goes unnoticed), and returns the cache unchanged. *)
Theorem generate_uses_cached_profile
    (DEFAULT_PROFILE : string) (profiles_dir profiles_dir' : gmap string file)
    (cache : gmap string Profile) (seed prompt_index : Z)
    (profile : option string) (prefix suffix : string) (data : Profile) :
  cache !! default DEFAULT_PROFILE profile = Some data →
  Zero2JSONBaseNode.generate DEFAULT_PROFILE profiles_dir cache
    seed prompt_index profile prefix suffix =
  Zero2JSONBaseNode.generate DEFAULT_PROFILE profiles_dir' cache
    seed prompt_index profile prefix suffix ∧
  Zero2JSONBaseNode.generate DEFAULT_PROFILE profiles_dir cache
    seed prompt_index profile prefix suffix =
  (cache,
   generate_prompt seed prompt_index data
   ≫= λ prompt, mret (prefix +:+ prompt +:+ suffix)).
Proof.
  intros Hhit.
  rewrite (generate_with_profile DEFAULT_PROFILE profiles_dir cache seed
             prompt_index profile prefix suffix data (or_introl Hhit)).
  rewrite (generate_with_profile DEFAULT_PROFILE profiles_dir' cache seed
             prompt_index profile prefix suffix data (or_introl Hhit)).
  rewrite insert_id by exact Hhit. split; reflexivity.
Qed.

Lemma generate_uses_cached_profile_witness :
  ({["p.json" := plain]} : gmap string Profile)
    !! default "default.json" (Some "p.json") = Some plain ∧
  Zero2JSONBaseNode.generate "default.json"
    {["p.json" := Document unknown_slot]} {["p.json" := plain]}
    1 2 (Some "p.json") "" "" =
  Zero2JSONBaseNode.generate "default.json"
    ∅ {["p.json" := plain]} 1 2 (Some "p.json") "" "".
Proof.
  assert (({["p.json" := plain]} : gmap string Profile)
            !! default "default.json" (Some "p.json") = Some plain) as Hhit
    by (vm_compute; reflexivity).
  split; [exact Hhit |].
  exact (proj1 (generate_uses_cached_profile
                  "default.json" {["p.json" := Document unknown_slot]} ∅
                  {["p.json" := plain]} 1 2 (Some "p.json") "" "" plain Hhit)).
Defined.

(** ** Batches: edge cases *)

(** X14: when loading the profile fails, [generate_batch] does not raise:
    it returns the pair of the error text and the text of an empty list,
    and creates no hasher. *)
Theorem generate_batch_reports_load_failure
    (profiles_dir : gmap string file) (seed start_index count : Z)
    (profile separator : string) (e : exn) :
  load_profile profiles_dir profile = Raised e →
  ∃ msg,
    Z2J_BatchGenerator.exn_str e = Some msg ∧
    Z2J_BatchGenerator.generate_batch profiles_dir seed start_index count
                                      profile separator =
    ([], Returned ("Error: " +:+ msg, "[]")).
Proof.
  intros Hload.
  destruct (load_profile_raises _ _ _ Hload) as (msg & Hstr & _).
  exists msg. split; [exact Hstr |].
  unfold Z2J_BatchGenerator.generate_batch. rewrite Hload, Hstr. reflexivity.
Qed.

Lemma generate_batch_reports_load_failure_witness :
  load_profile {["bad.json" := Malformed "Expecting value"]} "bad.json" =
    Raised (JSONDecodeError "Expecting value") ∧
  ∃ msg,
    Z2J_BatchGenerator.generate_batch
      {["bad.json" := Malformed "Expecting value"]} 0 0 4 "bad.json" "|" =
    ([], Returned ("Error: " +:+ msg, "[]")).
Proof.
  assert (load_profile {["bad.json" := Malformed "Expecting value"]} "bad.json" =
            Raised (JSONDecodeError "Expecting value")) as Hload
    by (vm_compute; reflexivity).
  split; [exact Hload |].
  destruct (generate_batch_reports_load_failure
              {["bad.json" := Malformed "Expecting value"]} 0 0 4
              "bad.json" "|" _ Hload) as (msg & _ & Hrun).
  exists msg. exact Hrun.
Defined.

(** X15: with a count of zero or less the loop body never runs: on a
    profile that loads, [generate_batch] returns two empty texts and
    creates no hasher, whatever the profile contains. *)
Theorem generate_batch_without_prompts
    (profiles_dir : gmap string file) (seed start_index count : Z)
    (profile separator : string) (data : Profile) :
  load_profile profiles_dir profile = Returned data →
  count <= 0 →
  Z2J_BatchGenerator.generate_batch profiles_dir seed start_index count
                                    profile separator =
  ([], Returned ("", "")).
Proof.
  intros Hload Hcount. unfold Z2J_BatchGenerator.generate_batch.
  rewrite Hload. unfold Z2J_BatchGenerator.range.
  replace (Z.to_nat count) with 0%nat by lia. reflexivity.
Qed.

Lemma generate_batch_without_prompts_witness :
  load_profile {["e.json" := Document empty_vocabulary]} "e.json" =
    Returned empty_vocabulary ∧
  -3 <= 0 ∧
  Z2J_BatchGenerator.generate_batch
    {["e.json" := Document empty_vocabulary]} 9 9 (-3) "e.json" "|" =
  ([], Returned ("", "")).
Proof.
  assert (load_profile {["e.json" := Document empty_vocabulary]} "e.json" =
            Returned empty_vocabulary) as Hload by (vm_compute; reflexivity).
  assert (-3 <= 0) as Hcount by discriminate.
  split; [exact Hload |]. split; [exact Hcount |].
  exact (generate_batch_without_prompts _ 9 9 (-3) "e.json" "|" _ Hload Hcount).
Defined.

(** X16: a batch of one agrees with the base node: if [generate], with no
    cache entry for the profile and no prefix or suffix, returns a text for a profile
    that loads, then [generate_batch] with [count = 1] at the same index
    returns that text, and the same text numbered 0. *)
Theorem batch_of_one_is_generate
    (DEFAULT_PROFILE : string) (profiles_dir : gmap string file)
    (cache : gmap string Profile) (seed index : Z)
    (profile separator text : string) (data : Profile) :
  cache !! profile = None →
  load_profile profiles_dir profile = Returned data →
  result (snd (Zero2JSONBaseNode.generate DEFAULT_PROFILE profiles_dir cache
                 seed index (Some profile) "" "")) = Returned text →
  result (Z2J_BatchGenerator.generate_batch profiles_dir seed index 1
                                            profile separator) =
  Returned (text, "[0] " +:+ text).
Proof.
  intros Hmiss Hload Hgen.
  rewrite (generate_with_profile DEFAULT_PROFILE profiles_dir cache seed index
             (Some profile) "" "" data (or_intror (conj Hmiss Hload))) in Hgen.
  cbn [snd] in Hgen.
  unfold Z2J_BatchGenerator.generate_batch. rewrite Hload.
  change (Z2J_BatchGenerator.range 1) with [0].
  cbn [Z2J_BatchGenerator.collect]. rewrite Z.add_0_r.
  destruct (generate_prompt seed index data) as [tr [prompt | e |]];
    cbn in Hgen; try discriminate Hgen.
  injection Hgen as <-. rewrite append_empty_r.
  repeat run_step. reflexivity.
Qed.

Lemma batch_of_one_is_generate_witness :
  (∅ : gmap string Profile) !! "u.json" = None ∧
  load_profile {["u.json" := Document unknown_slot]} "u.json" =
    Returned unknown_slot ∧
  result (Z2J_BatchGenerator.generate_batch
            {["u.json" := Document unknown_slot]} 4 6 1 "u.json" "|") =
  Returned ("A x B {unknown} C", "[0] " +:+ "A x B {unknown} C").
Proof.
  assert ((∅ : gmap string Profile) !! "u.json" = None) as Hmiss by reflexivity.
  assert (load_profile {["u.json" := Document unknown_slot]} "u.json" =
            Returned unknown_slot) as Hload by (vm_compute; reflexivity).
  split; [exact Hmiss |]. split; [exact Hload |].
  apply (batch_of_one_is_generate "default.json" _ ∅ 4 6 "u.json" "|" _
           unknown_slot Hmiss Hload).
  vm_compute. reflexivity.
Defined.

(** ** Change tokens *)

Lemma lxor_cancel (seed a b : Z) :
  Z.lxor (Z.lxor (Z.lxor seed a) b) b = Z.lxor seed a.
Proof. now rewrite Z.lxor_assoc, Z.lxor_nilpotent, Z.lxor_0_r. Qed.

(** X17: the base node's change token is the coordinate hash of
    [seed XOR xxh32(profile name)] at [(prompt_index, 0)]: it does not read
    [prefix] or [suffix], and it cannot tell a (seed, profile) pair from
    another with the same XOR: for profile names [p] and [p'], the seed
    [seed XOR xxh32(p) XOR xxh32(p')] with [p'] gives the token of [seed]
    with [p]. *)
Theorem base_IS_CHANGED_collisions
    (DEFAULT_PROFILE : string) (seed prompt_index : Z)
    (p p' prefix suffix prefix' suffix' : string) :
  Zero2JSONBaseNode.truthy p = true →
  Zero2JSONBaseNode.truthy p' = true →
  Zero2JSONBaseNode.IS_CHANGED DEFAULT_PROFILE
    (Z.lxor (Z.lxor seed (XXH32.digest 0 (encode p))) (XXH32.digest 0 (encode p')))
    prompt_index (Some p') prefix' suffix' =
  Zero2JSONBaseNode.IS_CHANGED DEFAULT_PROFILE seed prompt_index (Some p)
                               prefix suffix ∧
  Zero2JSONBaseNode.IS_CHANGED DEFAULT_PROFILE seed prompt_index (Some p)
                               prefix suffix =
  ([Hasher 0], Returned (XXH32.digest 0 (encode p)))
  ≫= λ profile_hash, prompt_hash (Z.lxor seed profile_hash) [prompt_index; 0].
Proof.
  intros Hp Hp'. unfold Zero2JSONBaseNode.IS_CHANGED, new_hasher_fed.
  unfold Zero2JSONBaseNode.or_default. rewrite Hp, Hp'. cbv zeta.
  rewrite !bind_returned. unfold XXH32.intdigest, XXH32.xxh32.
  cbn [XXH32.st_seed XXH32.st_fed]. rewrite lxor_cancel.
  split; reflexivity.
Qed.

Lemma base_IS_CHANGED_collisions_witness :
  Zero2JSONBaseNode.truthy "a.json" = true ∧
  Zero2JSONBaseNode.truthy "b.json" = true ∧
  Zero2JSONBaseNode.IS_CHANGED "default.json"
    (Z.lxor (Z.lxor 5 (XXH32.digest 0 (encode "a.json")))
            (XXH32.digest 0 (encode "b.json")))
    3 (Some "b.json") "x" "y" =
  Zero2JSONBaseNode.IS_CHANGED "default.json" 5 3 (Some "a.json") "" "".
Proof.
  split; [reflexivity |]. split; [reflexivity |].
  exact (proj1 (base_IS_CHANGED_collisions "default.json" 5 3
                  "a.json" "b.json" "" "" "x" "y" eq_refl eq_refl)).
Defined.

(** X18: an absent or empty profile name stands for the node's default
    profile in the change token, and the token raises [struct.error], after
    creating its two hashers, exactly when [prompt_index] does not fit a
    signed 32-bit integer. *)
Theorem base_IS_CHANGED_outcome
    (DEFAULT_PROFILE : string) (seed prompt_index : Z)
    (profile : option string) (prefix suffix : string) :
  Zero2JSONBaseNode.IS_CHANGED DEFAULT_PROFILE seed prompt_index profile
                               prefix suffix =
  (let name := Zero2JSONBaseNode.or_default profile DEFAULT_PROFILE in
   let mixed := Z.lxor seed (XXH32.digest 0 (encode name)) in
   ([Hasher 0; Hasher (mixed mod 2 ^ 32)],
    if in_int32 prompt_index
    then Returned (XXH32.digest (mixed mod 2 ^ 32)
                                (le_bytes 4 prompt_index ++ le_bytes 4 0))
    else Raised StructError)) ∧
  Zero2JSONBaseNode.or_default None DEFAULT_PROFILE = DEFAULT_PROFILE ∧
  Zero2JSONBaseNode.or_default (Some "") DEFAULT_PROFILE = DEFAULT_PROFILE.
Proof.
  split; [| split; reflexivity].
  unfold Zero2JSONBaseNode.IS_CHANGED, new_hasher_fed. cbv zeta.
  rewrite bind_returned, prompt_hash_closed_form.
  unfold XXH32.intdigest, XXH32.xxh32. cbn [XXH32.st_seed XXH32.st_fed].
  cbn [trace result fst snd forallb map concat app].
  rewrite app_nil_r. change (in_int32 0) with true.
  destruct (in_int32 prompt_index); reflexivity.
Qed.

(** X19: for a count within the node's declared range 1..100, the batch
    node's change token returns exactly when [start_index] fits a signed
    32-bit integer; otherwise it raises [struct.error]. *)
Theorem batch_IS_CHANGED_outcome
    (seed start_index count : Z) (profile separator : string) :
  1 <= count <= 100 →
  Z2J_BatchGenerator.IS_CHANGED seed start_index count profile separator =
  (let mixed := Z.lxor seed (XXH32.digest 0 (encode profile)) in
   ([Hasher 0; Hasher (mixed mod 2 ^ 32)],
    if in_int32 start_index
    then Returned (XXH32.digest (mixed mod 2 ^ 32)
                                (le_bytes 4 start_index ++ le_bytes 4 count))
    else Raised StructError)).
Proof.
  intros Hcount.
  unfold Z2J_BatchGenerator.IS_CHANGED, new_hasher_fed. cbv zeta.
  rewrite bind_returned, prompt_hash_closed_form.
  unfold XXH32.intdigest, XXH32.xxh32. cbn [XXH32.st_seed XXH32.st_fed].
  cbn [trace result fst snd forallb map concat app].
  rewrite app_nil_r, (in_int32_ordinal count) by lia.
  destruct (in_int32 start_index); reflexivity.
Qed.

Lemma batch_IS_CHANGED_outcome_witness :
  1 <= 4 <= 100 ∧
  Z2J_BatchGenerator.IS_CHANGED 12345 77 4 "style_x.json" "|" =
  ([Hasher 0; Hasher 2531454105], Returned 2545402155).
Proof.
  assert (1 <= 4 <= 100) as Hcount by (split; discriminate).
  split; [exact Hcount |].
  rewrite (batch_IS_CHANGED_outcome 12345 77 4 "style_x.json" "|" Hcount).
  vm_compute. reflexivity.
Defined.

(** * Profile discovery *)

Lemma name_le_total (a b : string) : name_le a b ∨ name_le b a.
Proof. apply String.leb_total. Qed.

Lemma name_le_trans (a : string) :
  ∀ b c, name_le a b → name_le b c → name_le a c.
Proof.
  unfold name_le, String.leb.
  induction a as [| x a IH]; intros [| y b] [| z c]; cbn [String.compare];
    try (intros; reflexivity); try (intros; discriminate).
  unfold Ascii.compare.
  destruct (N.compare_spec (N_of_ascii x) (N_of_ascii y)) as [Hxy | Hxy | Hxy];
    destruct (N.compare_spec (N_of_ascii y) (N_of_ascii z)) as [Hyz | Hyz | Hyz];
    destruct (N.compare_spec (N_of_ascii x) (N_of_ascii z)) as [Hxz | Hxz | Hxz];
    try (exfalso; lia); try (intros; reflexivity); try (intros; discriminate).
  apply IH.
Qed.

Lemma insert_sorted_perm (x : string) (l : list string) :
  insert_sorted x l ≡ₚ x :: l.
Proof.
  induction l as [| y l IH]; cbn [insert_sorted]; [reflexivity |].
  destruct (String.leb x y); [reflexivity |].
  rewrite IH. apply Permutation_swap.
Qed.

Lemma sorted_perm (l : list string) : sorted l ≡ₚ l.
Proof.
  induction l as [| x l IH]; [reflexivity |].
  unfold sorted in *. cbn [foldr]. now rewrite insert_sorted_perm, IH.
Qed.

Lemma insert_sorted_ordered (x : string) (l : list string) :
  StronglySorted name_le l → StronglySorted name_le (insert_sorted x l).
Proof.
  induction l as [| y l IH]; intros Hsorted; cbn [insert_sorted].
  - repeat constructor.
  - apply StronglySorted_inv in Hsorted as [Hl Hy].
    destruct (String.leb x y) eqn:Hxy.
    + constructor; [constructor; assumption |].
      constructor; [exact Hxy |].
      eapply Forall_impl; [exact Hy |].
      intros z Hyz. now apply (name_le_trans x y z).
    + constructor; [now apply IH |].
      rewrite insert_sorted_perm. constructor; [| exact Hy].
      destruct (name_le_total x y) as [Hle | Hle]; [| exact Hle].
      unfold name_le in Hle. congruence.
Qed.

Lemma sorted_ordered (l : list string) : StronglySorted name_le (sorted l).
Proof.
  induction l as [| x l IH]; [constructor |].
  unfold sorted in *. cbn [foldr]. now apply insert_sorted_ordered.
Qed.

Lemma list_remove_perm (x : string) (l : list string) :
  x ∈ l → x :: list_remove x l ≡ₚ l.
Proof.
  induction l as [| y l IH]; intros Hin; [now apply not_elem_of_nil in Hin |].
  cbn [list_remove]. destruct (String.eqb_spec x y) as [-> | Hne]; [reflexivity |].
  apply elem_of_cons in Hin as [-> | Hin]; [congruence |].
  rewrite Permutation_swap. now rewrite (IH Hin).
Qed.

Lemma list_remove_Forall (P : string → Prop) (x : string) (l : list string) :
  Forall P l → Forall P (list_remove x l).
Proof.
  induction 1 as [| y l Hy Hl IH]; cbn [list_remove]; [constructor |].
  destruct (String.eqb x y); [exact Hl | now constructor].
Qed.

Lemma list_remove_ordered (x : string) (l : list string) :
  StronglySorted name_le l → StronglySorted name_le (list_remove x l).
Proof.
  induction 1 as [| y l Hl IH Hy]; cbn [list_remove]; [constructor |].
  destruct (String.eqb x y); [exact Hl |].
  constructor; [exact IH | now apply list_remove_Forall].
Qed.

Lemma default_name_append (prefix : string) :
  (if Zero2JSONBaseNode.truthy prefix then prefix +:+ "default.json"
   else "default.json") = prefix +:+ "default.json".
Proof. destruct prefix; reflexivity. Qed.

(** X20: [discover_profiles] never returns an empty list, so taking its
    first element is safe; when the directory does not exist or nothing
    matches, the list is the single name [default.json], whatever the
    prefix. *)
Theorem discover_profiles_nonempty
    (dir_exists : bool) (matches : list string) (prefix : string) :
  discover_profiles dir_exists matches prefix ≠ [] ∧
  discover_profiles false matches prefix = ["default.json"] ∧
  discover_profiles dir_exists [] prefix = ["default.json"].
Proof.
  split; [| split].
  - unfold discover_profiles. destruct dir_exists; cbn [negb]; [| discriminate].
    cbv zeta. destruct (bool_decide _); [discriminate |].
    destruct (sorted matches); discriminate.
  - reflexivity.
  - destruct dir_exists; reflexivity.
Qed.

(** X21: when the directory exists and something matches, the discovered
    list holds exactly the matching names, each as often as it was found:
    nothing is lost, added or duplicated by sorting and by moving the
    default to the front. *)
Theorem discover_profiles_permutation (matches : list string) (prefix : string) :
  matches ≠ [] →
  discover_profiles true matches prefix ≡ₚ matches.
Proof.
  intros Hne. unfold discover_profiles. cbn [negb]. cbv zeta.
  rewrite default_name_append.
  assert (∀ l : list string, l ≡ₚ matches →
            match l with [] => ["default.json"] | _ => l end ≡ₚ matches)
    as Hkeep.
  { intros [| a l] Hl; [| exact Hl].
    symmetry in Hl. apply Permutation_nil_r in Hl. congruence. }
  destruct (bool_decide_reflect ((prefix +:+ "default.json") ∈ sorted matches))
    as [Hin | Hout].
  - rewrite list_remove_perm by exact Hin. apply sorted_perm.
  - apply Hkeep, sorted_perm.
Qed.

Lemma discover_profiles_permutation_witness :
  ["style_b.json"; "style_default.json"; "style_a.json"] ≠ [] ∧
  discover_profiles true ["style_b.json"; "style_default.json"; "style_a.json"]
                    "style_"
  ≡ₚ ["style_b.json"; "style_default.json"; "style_a.json"].
Proof.
  assert (["style_b.json"; "style_default.json"; "style_a.json"]
            ≠ ([] : list string)) as Hne by discriminate.
  split; [exact Hne |].
  exact (discover_profiles_permutation _ "style_" Hne).
Defined.

(** X22: when the directory exists and something matches, the default
    profile [prefix + "default.json"], if it is among the matches, comes
    first, and the remaining names follow in ascending order; if it is not
    among them, the whole list is in ascending order. *)
Theorem discover_profiles_order (matches : list string) (prefix : string) :
  matches ≠ [] →
  ∃ rest,
    StronglySorted name_le rest ∧
    (((prefix +:+ "default.json") ∈ matches ∧
      discover_profiles true matches prefix = (prefix +:+ "default.json") :: rest) ∨
     (((prefix +:+ "default.json") ∉ matches) ∧
      discover_profiles true matches prefix = rest)).
Proof.
  intros Hne. unfold discover_profiles. cbn [negb]. cbv zeta.
  rewrite default_name_append.
  destruct (bool_decide_reflect ((prefix +:+ "default.json") ∈ sorted matches))
    as [Hin | Hout].
  - exists (list_remove (prefix +:+ "default.json") (sorted matches)).
    split; [apply list_remove_ordered, sorted_ordered |].
    left. split; [| reflexivity]. now rewrite <- (sorted_perm matches).
  - exists (sorted matches). split; [apply sorted_ordered |].
    right. split; [now rewrite <- (sorted_perm matches) |].
    destruct (sorted matches) as [| a l] eqn:Hsorted; [| reflexivity].
    exfalso. apply Hne. apply Permutation_nil_r.
    rewrite <- Hsorted. symmetry. apply sorted_perm.
Qed.

Lemma discover_profiles_order_witness :
  ["style_b.json"; "style_default.json"; "style_a.json"] ≠ [] ∧
  ∃ rest,
    StronglySorted name_le rest ∧
    ((("style_" +:+ "default.json")
        ∈ ["style_b.json"; "style_default.json"; "style_a.json"] ∧
      discover_profiles true
        ["style_b.json"; "style_default.json"; "style_a.json"] "style_" =
        ("style_" +:+ "default.json") :: rest) ∨
     ((("style_" +:+ "default.json")
        ∉ ["style_b.json"; "style_default.json"; "style_a.json"]) ∧
      discover_profiles true
        ["style_b.json"; "style_default.json"; "style_a.json"] "style_" = rest)).
Proof.
  assert (["style_b.json"; "style_default.json"; "style_a.json"]
            ≠ ([] : list string)) as Hne by discriminate.
  split; [exact Hne |].
  exact (discover_profiles_order _ "style_" Hne).
Defined.

(** * Components, cache reuse, pool order *)

Lemma select_components_items (seed idx : Z)
    (items : list (string * list string)) :
  ∀ i components tr components',
    select_components seed idx i items components = (tr, Returned components') →
    ∀ key,
      components' !! key = components !! key ∨
      ∃ pool item,
        (key, pool) ∈ items ∧ item ∈ pool ∧ components' !! key = Some item.
Proof.
  induction items as [| [k pool] rest IH];
    intros i components tr components' Hrun key.
  - injection Hrun as _ <-. now left.
  - cbn [select_components] in Hrun.
    destruct (prompt_hash seed [idx; i + 1]) as [tr1 [h | e |]];
      try discriminate Hrun.
    rewrite bind_returned in Hrun.
    destruct (hash_to_index h (len pool)) as [tr2 [n | e |]];
      try discriminate Hrun.
    rewrite bind_returned in Hrun. unfold lift in Hrun.
    destruct (getitem pool n) as [item | e |] eqn:Hget; try discriminate Hrun.
    rewrite bind_returned in Hrun. cbn [trace result fst snd] in Hrun.
    assert (item ∈ pool) as Hitem.
    { unfold getitem in Hget. destruct (_ && _); [| discriminate].
      destruct (pool !! _) as [x |] eqn:Hlook; [| discriminate].
      injection Hget as <-. apply list_elem_of_lookup. eauto. }
    destruct (select_components seed idx (i + 1) rest (<[k := item]> components))
      as [tr3 [c | e |]] eqn:Hrest; try discriminate Hrun.
    injection Hrun as _ <-.
    destruct (IH _ _ _ _ Hrest key) as [Hsame | (p & it & Hin & Hit & Hlook)].
    + destruct (decide (k = key)) as [-> | Hne].
      * right. exists pool, item. rewrite Hsame, lookup_insert_eq.
        split; [apply list_elem_of_here | split; [exact Hitem | reflexivity]].
      * left. now rewrite Hsame, lookup_insert_ne.
    + right. exists p, it.
      split; [now apply list_elem_of_further | split; assumption].
Qed.

Lemma select_components_covers (seed idx : Z)
    (items : list (string * list string)) :
  ∀ i components tr components',
    select_components seed idx i items components = (tr, Returned components') →
    ∀ key, key ∈ items.*1 → is_Some (components' !! key).
Proof.
  induction items as [| [k pool] rest IH];
    intros i components tr components' Hrun key Hkey.
  - now apply not_elem_of_nil in Hkey.
  - cbn [select_components] in Hrun.
    destruct (prompt_hash seed [idx; i + 1]) as [tr1 [h | e |]];
      try discriminate Hrun.
    rewrite bind_returned in Hrun.
    destruct (hash_to_index h (len pool)) as [tr2 [n | e |]];
      try discriminate Hrun.
    rewrite bind_returned in Hrun. unfold lift in Hrun.
    destruct (getitem pool n) as [item | e |]; try discriminate Hrun.
    rewrite bind_returned in Hrun. cbn [trace result fst snd] in Hrun.
    destruct (select_components seed idx (i + 1) rest (<[k := item]> components))
      as [tr3 [c | e |]] eqn:Hrest; try discriminate Hrun.
    injection Hrun as _ <-.
    cbn [fmap list_fmap fst] in Hkey. apply elem_of_cons in Hkey as [-> | Hkey].
    + destruct (select_components_items _ _ _ _ _ _ _ Hrest k)
        as [Hsame | (p & it & _ & _ & Hlook)].
      * rewrite Hsame, lookup_insert_eq. eauto.
      * rewrite Hlook. eauto.
    + exact (IH _ _ _ _ Hrest key Hkey).
Qed.

(** X23: when the loop over the pools completes, [components] has an
    entry for every pool key and for nothing else, and each entry is an
    item of a pool stored under that key.  The bracketed default of the
    fallback, used only for a pool key without a component, can therefore
    not occur. *)
Theorem components_are_pool_items
    (seed idx : Z) (ps : list (string * list string))
    (tr : list event) (components : gmap string string) :
  select_components seed idx 0 ps ∅ = (tr, Returned components) →
  (∀ key, key ∈ ps.*1 ↔ is_Some (components !! key)) ∧
  (∀ key value,
     components !! key = Some value →
     ∃ pool, (key, pool) ∈ ps ∧ value ∈ pool) ∧
  (∀ template,
     fallback template ps.*1 components =
     fold_left
       (λ t key,
          match components !! key with
          | Some value => str_replace t ("{" +:+ key +:+ "}") value
          | None => t
          end)
       ps.*1 template).
Proof.
  intros Hrun.
  assert (∀ key, key ∈ ps.*1 → is_Some (components !! key)) as Hcover
    by exact (select_components_covers _ _ _ _ _ _ _ Hrun).
  split; [| split].
  - intros key. split; [apply Hcover |].
    intros [value Hvalue].
    destruct (select_components_items _ _ _ _ _ _ _ Hrun key)
      as [Hsame | (pool & item & Hin & _ & _)].
    + rewrite Hsame, lookup_empty in Hvalue. discriminate.
    + apply list_elem_of_fmap. exists (key, pool). split; [reflexivity | exact Hin].
  - intros key value Hvalue.
    destruct (select_components_items _ _ _ _ _ _ _ Hrun key)
      as [Hsame | (pool & item & Hin & Hitem & Hlook)].
    + rewrite Hsame, lookup_empty in Hvalue. discriminate.
    + exists pool. split; [exact Hin |]. congruence.
  - intros template. unfold fallback.
    assert (∀ keys : list string,
              (∀ key, key ∈ keys → is_Some (components !! key)) →
              ∀ t,
                fold_left
                  (λ template key,
                     str_replace template ("{" +:+ key +:+ "}")
                       (default ("[" +:+ key +:+ "]") (components !! key)))
                  keys t =
                fold_left
                  (λ t key,
                     match components !! key with
                     | Some value => str_replace t ("{" +:+ key +:+ "}") value
                     | None => t
                     end)
                  keys t) as Hfold.
    { induction keys as [| key keys IH]; intros Hall t; [reflexivity |].
      cbn [fold_left].
      destruct (Hall key (list_elem_of_here key keys)) as [value Hvalue].
      rewrite Hvalue. cbn [default from_option id].
      apply IH. intros k Hk. apply Hall. now apply list_elem_of_further. }
    apply Hfold. exact Hcover.
Qed.

Lemma components_are_pool_items_witness :
  select_components 42 7 0
    [("sky", ["sun"; "rain"; "fog"; "snow"; "hail"]); ("place", ["hills"; "sea"])]
    ∅ =
    ([Hasher 42; Hasher 42], Returned {["sky" := "snow"; "place" := "hills"]}) ∧
  ∀ key value,
    ({["sky" := "snow"; "place" := "hills"]} : gmap string string) !! key
      = Some value →
    ∃ pool,
      (key, pool) ∈ [("sky", ["sun"; "rain"; "fog"; "snow"; "hail"]);
                     ("place", ["hills"; "sea"])] ∧
      value ∈ pool.
Proof.
  assert (select_components 42 7 0
            [("sky", ["sun"; "rain"; "fog"; "snow"; "hail"]);
             ("place", ["hills"; "sea"])] ∅ =
          ([Hasher 42; Hasher 42],
           Returned {["sky" := "snow"; "place" := "hills"]})) as Hrun
    by (vm_compute; reflexivity).
  split; [exact Hrun |].
  exact (proj1 (proj2 (components_are_pool_items 42 7 _ _ _ Hrun))).
Defined.

(** X24: a profile loaded by one call of [generate] serves every later
    call: after a call that found no cache entry and loaded the profile,
    a second call for the same name renders the profile loaded first,
    whatever the directory holds by then and whatever the other inputs
    are, and leaves the cache as the first call left it. *)
Theorem generate_twice
    (DEFAULT_PROFILE : string) (profiles_dir profiles_dir' : gmap string file)
    (cache : gmap string Profile) (seed prompt_index seed' prompt_index' : Z)
    (profile : option string) (prefix suffix prefix' suffix' : string)
    (data : Profile) :
  cache !! default DEFAULT_PROFILE profile = None →
  load_profile profiles_dir (default DEFAULT_PROFILE profile) = Returned data →
  let cache1 :=
    fst (Zero2JSONBaseNode.generate DEFAULT_PROFILE profiles_dir cache
           seed prompt_index profile prefix suffix) in
  cache1 !! default DEFAULT_PROFILE profile = Some data ∧
  Zero2JSONBaseNode.generate DEFAULT_PROFILE profiles_dir' cache1
    seed' prompt_index' profile prefix' suffix' =
  (cache1,
   generate_prompt seed' prompt_index' data
   ≫= λ prompt, mret (prefix' +:+ prompt +:+ suffix')).
Proof.
  intros Hmiss Hload cache1. subst cache1.
  rewrite (generate_with_profile DEFAULT_PROFILE profiles_dir cache seed
             prompt_index profile prefix suffix data
             (or_intror (conj Hmiss Hload))).
  cbn [fst].
  assert ((<[default DEFAULT_PROFILE profile := data]> cache)
            !! default DEFAULT_PROFILE profile = Some data) as Hhit
    by apply lookup_insert_eq.
  split; [exact Hhit |].
  rewrite (generate_with_profile DEFAULT_PROFILE profiles_dir'
             (<[default DEFAULT_PROFILE profile := data]> cache) seed'
             prompt_index' profile prefix' suffix' data (or_introl Hhit)).
  now rewrite insert_insert_eq.
Qed.

Lemma generate_twice_witness :
  (∅ : gmap string Profile) !! default "default.json" (Some "p.json") = None ∧
  load_profile {["p.json" := Document plain]}
               (default "default.json" (Some "p.json")) = Returned plain ∧
  snd (Zero2JSONBaseNode.generate "default.json" ∅
         (fst (Zero2JSONBaseNode.generate "default.json"
                 {["p.json" := Document plain]} ∅ 1 2 (Some "p.json") "" ""))
         3 4 (Some "p.json") "<" ">") =
  (generate_prompt 3 4 plain ≫= λ prompt, mret ("<" +:+ prompt +:+ ">")).
Proof.
  assert ((∅ : gmap string Profile) !! default "default.json" (Some "p.json")
            = None) as Hmiss by reflexivity.
  assert (load_profile {["p.json" := Document plain]}
                       (default "default.json" (Some "p.json")) = Returned plain)
    as Hload by (vm_compute; reflexivity).
  split; [exact Hmiss |]. split; [exact Hload |].
  pose proof (generate_twice "default.json" {["p.json" := Document plain]} ∅ ∅
                1 2 3 4 (Some "p.json") "" "" "<" ">" plain Hmiss Hload)
    as [_ Hsecond].
  cbv zeta in Hsecond. rewrite Hsecond. reflexivity.
Defined.

Lemma product_perm (l l' : list Z) : l ≡ₚ l' → product l = product l'.
Proof.
  unfold product. induction 1 as [| x l l' _ IH | x y l | l l' l'' _ IH1 _ IH2];
    cbn [foldr]; [reflexivity | now rewrite IH | lia | congruence].
Qed.

(** X25: the combination count does not depend on the order of the pools
    (nor on the informational fields), although the renders do: two
    profiles with the same templates whose pools are permutations of each
    other have the same count. *)
Theorem combinations_ignore_pool_order
    (ts : list string) (ps ps' : list (string * list string)) n d v n' d' v' :
  ps ≡ₚ ps' →
  calculate_combinations (mk_profile (Some ts) (Some ps) n d v) =
  calculate_combinations (mk_profile (Some ts) (Some ps') n' d' v').
Proof.
  intros Hperm. unfold calculate_combinations.
  change (default [] (templates (mk_profile (Some ts) (Some ps) n d v))) with ts.
  change (default [] (pools (mk_profile (Some ts) (Some ps) n d v))) with ps.
  change (default [] (templates (mk_profile (Some ts) (Some ps') n' d' v')))
    with ts.
  change (default [] (pools (mk_profile (Some ts) (Some ps') n' d' v')))
    with ps'.
  rewrite !fold_left_product. f_equal. apply product_perm.
  now rewrite Hperm.
Qed.

Lemma combinations_ignore_pool_order_witness :
  [("a", ["x"; "y"]); ("b", ["u"; "v"; "w"])]
    ≡ₚ [("b", ["u"; "v"; "w"]); ("a", ["x"; "y"])] ∧
  calculate_combinations
    (mk_profile (Some ["t"]) (Some [("a", ["x"; "y"]); ("b", ["u"; "v"; "w"])])
                None None None) =
  calculate_combinations
    (mk_profile (Some ["t"]) (Some [("b", ["u"; "v"; "w"]); ("a", ["x"; "y"])])
                (Some "swapped") None None).
Proof.
  assert ([("a", ["x"; "y"]); ("b", ["u"; "v"; "w"])]
            ≡ₚ [("b", ["u"; "v"; "w"]); ("a", ["x"; "y"])]) as Hperm
    by apply Permutation_swap.
  split; [exact Hperm |].
  exact (combinations_ignore_pool_order ["t"] _ _ None None None
           (Some "swapped") None None Hperm).
Defined.
